(** * QA Platform Python SDK: request executor, pagination, webhook signatures

    A shallow embedding of [docs/generated/sdks/qa_platform_sdk.py]
    (class [QAPlatformAPI]) and the properties of its retry loop, its
    authentication state, its pagination helper and its webhook signature
    check.

    Conventions of the embedding.
    - Python values that travel through JSON are the type [value].  JSON
      numbers are integers ([Z]); floating point numbers are left out.
    - A Python [str] is a [string] whose characters are code points below 256;
      a character is ASCII when its code point is below 128.
    - Exceptions are the type [exn]; a computation ends in [Ret], [Raise] or,
      for the unbounded [while True] loop of [paginate], [OutOfFuel].
    - The HTTP transport ([requests.Session.request]) is an oracle that maps
      the history of the client's events and the request to an outcome;
      [time.sleep] appends an event to that history.
    - [retry_delay] is a rational number: the product with a power of two is
      exact, as it is for a binary float that neither overflows nor
      underflows.  Sleep lengths are taken in the range that [time.sleep]
      converts, and attempt numbers in the range whose power of two converts
      to a float (see [sleep], [backoff] and [sleep_max]).
    - Log messages ([self.logger.warning]) have no effect on the control flow
      and are left out.  Extra keyword arguments of [request] are carried
      along as they are; arguments named [timeout] or [params] among them,
      which would replace the fixed ones, are not considered.
    - [response.json()] raises [requests.exceptions.JSONDecodeError], which is
      both a [ValueError] and a [RequestException] (requests 2.27 and
      later). *)

From Stdlib Require Import ZArith QArith Bool List String Ascii Lia.
From Stdlib.Strings Require Import Byte.
From stdpp Require Import base option list strings gmap.
Import ListNotations.

Local Open Scope string_scope.
Local Open Scope list_scope.
Local Open Scope Z_scope.

(* ------------------------------------------------------------------ *)
(** ** Python values *)

#[warnings="-register-all"]
Inductive value : Type :=
| VNone
| VBool (b : bool)
| VInt (n : Z)
| VStr (s : string)
| VList (l : list value)
| VDict (d : list (string * value)).

(** Python dicts keep insertion order; keys of a [VDict] are taken to be
    pairwise different, so that the first binding of a key is the only one. *)
Definition pydict : Type := list (string * value).

Fixpoint dict_lookup (k : string) (d : pydict) : option value :=
  match d with
  | [] => None
  | (k', v) :: d' => if String.eqb k k' then Some v else dict_lookup k d'
  end.

(** [d[k] = v]: replaces the binding in place, or appends a new one. *)
Fixpoint dict_set (k : string) (v : value) (d : pydict) : pydict :=
  match d with
  | [] => [(k, v)]
  | (k', v') :: d' =>
      if String.eqb k k' then (k, v) :: d' else (k', v') :: dict_set k v d'
  end.

Fixpoint dict_remove (k : string) (d : pydict) : pydict :=
  match d with
  | [] => []
  | (k', v') :: d' =>
      if String.eqb k k' then dict_remove k d' else (k', v') :: dict_remove k d'
  end.

(** [d.pop(k, default)] *)
Definition dict_pop (k : string) (dflt : value) (d : pydict) : value * pydict :=
  (default dflt (dict_lookup k d), dict_remove k d).

Definition is_none (v : value) : bool :=
  match v with VNone => true | _ => false end.

(** Truth value of a Python object. *)
Definition truthy (v : value) : bool :=
  match v with
  | VNone => false
  | VBool b => b
  | VInt n => negb (n =? 0)
  | VStr s => negb (String.eqb s "")
  | VList l => match l with [] => false | _ => true end
  | VDict d => match d with [] => false | _ => true end
  end.

(** The value of an object used as an integer ([bool] is a subclass of [int]). *)
Definition as_int (v : value) : option Z :=
  match v with
  | VInt n => Some n
  | VBool b => Some (if b then 1 else 0)
  | _ => None
  end.

Definition chars (s : string) : list value :=
  map (fun c => VStr (String c EmptyString)) (list_ascii_of_string s).

(** The items an object yields when iterated ([list.extend], [len]). *)
Definition py_iter (v : value) : option (list value) :=
  match v with
  | VList l => Some l
  | VStr s => Some (chars s)
  | VDict d => Some (map (fun kv => VStr (fst kv)) d)
  | _ => None
  end.

Definition is_str (k : string) (v : value) : bool :=
  match v with VStr s => String.eqb s k | _ => false end.

Fixpoint is_prefix (p s : string) : bool :=
  match p, s with
  | EmptyString, _ => true
  | String a p', String b s' => Ascii.eqb a b && is_prefix p' s'
  | String _ _, EmptyString => false
  end.

Fixpoint is_substring (p s : string) : bool :=
  is_prefix p s ||
  match s with
  | EmptyString => false
  | String _ s' => is_substring p s'
  end.

(* ------------------------------------------------------------------ *)
(** ** Exceptions and results *)

Inductive exn : Type :=
| QAPlatformError (message : value) (status_code : option Z)
                  (error_code : value) (details : value)
| RateLimitError (message : string) (retry_after : Z)
| AuthenticationError (message : value)
| ValueError
| TypeError
| AttributeError
| KeyError.

Inductive result (A : Type) : Type :=
| Ret (a : A)
| Raise (e : exn)
| OutOfFuel.
Arguments Ret {A} a.
Arguments Raise {A} e.
Arguments OutOfFuel {A}.

(** [QAPlatformError.__init__]: [self.details = details or []]. *)
Definition mk_QAPlatformError (message : value) (status_code : option Z)
    (error_code : value) (details : value) : exn :=
  QAPlatformError message status_code error_code
    (if truthy details then details else VList []).

(** The attributes every [QAPlatformError] instance carries; the two
    subclasses fix them in their constructors. *)
Definition exn_status_code (e : exn) : option Z :=
  match e with
  | QAPlatformError _ sc _ _ => sc
  | RateLimitError _ _ => Some 429
  | AuthenticationError _ => Some 401
  | _ => None
  end.

(** [v.get(k, default)]: only a dict has the method. *)
Definition py_get (v : value) (k : string) (dflt : value) : exn + value :=
  match v with
  | VDict d => inr (default dflt (dict_lookup k d))
  | _ => inl AttributeError
  end.

(** [k in v] for a string [k]. *)
Definition py_in (k : string) (v : value) : exn + bool :=
  match v with
  | VDict d => inr (bool_decide (is_Some (dict_lookup k d)))
  | VList l => inr (existsb (is_str k) l)
  | VStr s => inr (is_substring k s)
  | _ => inl TypeError
  end.

(** [v[k]] for a string [k], used after [k in v] held. *)
Definition py_getitem (v : value) (k : string) : exn + value :=
  match v with
  | VDict d => match dict_lookup k d with Some x => inr x | None => inl KeyError end
  | _ => inl TypeError
  end.

(* ------------------------------------------------------------------ *)
(** ** [int(str)] *)

Definition code (c : ascii) : Z := Z.of_N (N_of_ascii c).

(** White space that [int] strips from a [str], among code points below 256:
    the ASCII white space (tab to carriage return, and the space) and the two
    white space characters above 127, which [int] turns into spaces first.
    The separators 28 to 31 are not stripped. *)
Definition is_space (c : ascii) : bool :=
  let n := code c in
  ((9 <=? n) && (n <=? 13)) || (n =? 32) || (n =? 133) || (n =? 160).

Fixpoint lstrip (s : list ascii) : list ascii :=
  match s with
  | c :: r => if is_space c then lstrip r else s
  | [] => []
  end.

Definition strip (s : list ascii) : list ascii := rev (lstrip (rev (lstrip s))).

Definition digit_val (c : ascii) : option Z :=
  let n := code c in
  if (48 <=? n) && (n <=? 57) then Some (n - 48) else None.

(** Decimal digits, single underscores allowed between two digits. *)
Fixpoint parse_digits (s : list ascii) (acc : Z) (after_digit : bool) : option Z :=
  match s with
  | [] => if after_digit then Some acc else None
  | c :: r =>
      match digit_val c with
      | Some d => parse_digits r (10 * acc + d) true
      | None =>
          if (code c =? 95) && after_digit then parse_digits r acc false else None
      end
  end.

(** The largest number of digits [int] converts ([sys.get_int_max_str_digits],
    4300 unless the program changes it). *)
Definition max_str_digits : nat := 4300.

(** [int(s)] in base 10; [None] stands for [ValueError]. *)
Definition int_of_str (s : string) : option Z :=
  let t := strip (list_ascii_of_string s) in
  if (max_str_digits <? length (omap digit_val t))%nat then None
  else
    match t with
    | c :: r =>
        if code c =? 45 then Z.opp <$> parse_digits r 0 false
        else if code c =? 43 then parse_digits r 0 false
        else parse_digits (c :: r) 0 false
    | [] => None
    end.

(* ------------------------------------------------------------------ *)
(** ** SHA-256 and HMAC ([hashlib.sha256], [hmac.new(...).hexdigest()])

    The two library functions the signature check calls, after FIPS 180-4
    and RFC 2104.  Words are 32-bit integers in [Z] with the wrap-around
    written out; byte strings are lists of integers below 256. *)

Module SHA256.

Definition w32 (x : Z) : Z := x mod 2 ^ 32.
Definition add32 (x y : Z) : Z := w32 (x + y).
Definition rotr (n x : Z) : Z := Z.lor (Z.shiftr x n) (w32 (Z.shiftl x (32 - n))).
Definition not32 (x : Z) : Z := Z.lxor x 0xffffffff.

Definition Ch (x y z : Z) : Z := Z.lxor (Z.land x y) (Z.land (not32 x) z).
Definition Maj (x y z : Z) : Z :=
  Z.lxor (Z.lxor (Z.land x y) (Z.land x z)) (Z.land y z).
Definition Sigma0 (x : Z) : Z := Z.lxor (Z.lxor (rotr 2 x) (rotr 13 x)) (rotr 22 x).
Definition Sigma1 (x : Z) : Z := Z.lxor (Z.lxor (rotr 6 x) (rotr 11 x)) (rotr 25 x).
Definition sigma0 (x : Z) : Z := Z.lxor (Z.lxor (rotr 7 x) (rotr 18 x)) (Z.shiftr x 3).
Definition sigma1 (x : Z) : Z := Z.lxor (Z.lxor (rotr 17 x) (rotr 19 x)) (Z.shiftr x 10).

(** FIPS 180-4 takes its constants from the primes: the round constants are
    the first 32 bits of the fractional parts of the cube roots of the first
    64 primes, the initial hash value those of the square roots of the first
    8 primes. *)
Definition is_prime (p : Z) : bool :=
  (2 <=? p) && forallb (fun d => negb (p mod (Z.of_nat d) =? 0)) (seq 2 (Z.to_nat p - 2)).

Definition primes : list Z :=
  filter (fun p => is_prime p = true) (map Z.of_nat (seq 2 310)).

(** The integer [k]-th root of [n], built bit by bit from bit [b - 1] down. *)
Fixpoint iroot_bits (b : nat) (k n r : Z) : Z :=
  match b with
  | O => r
  | S b' =>
      let r' := r + 2 ^ Z.of_nat b' in
      iroot_bits b' k n (if r' ^ k <=? n then r' else r)
  end.

Definition frac_root32 (k p : Z) : Z := w32 (iroot_bits 40 k (p * 2 ^ (32 * k)) 0).

Definition K : list Z := Eval vm_compute in map (frac_root32 3) (firstn 64 primes).

Definition H0 : list Z := Eval vm_compute in map (frac_root32 2) (firstn 8 primes).

(** Big-endian bytes of the lowest [n] bytes of [x]. *)
Fixpoint be_bytes (n : nat) (x : Z) : list Z :=
  match n with
  | O => []
  | S n' => (Z.shiftr x (8 * Z.of_nat n')) mod 256 :: be_bytes n' x
  end.

Definition be_word (bs : list Z) : Z :=
  fold_left (fun acc b => acc * 256 + b) bs 0.

(** Padding: a 1 bit, zeros up to 56 modulo 64 bytes, the bit length on 64 bits. *)
Definition pad (msg : list Z) : list Z :=
  let len := Z.of_nat (length msg) in
  msg ++ [0x80] ++ repeat 0 (Z.to_nat ((55 - len) mod 64)) ++ be_bytes 8 (8 * len).

Fixpoint chunks {A : Type} (count size : nat) (l : list A) : list (list A) :=
  match count with
  | O => []
  | S c => firstn size l :: chunks c size (skipn size l)
  end.

(** The message schedule, latest word first: [ws] holds W(t-1), W(t-2), ... *)
Fixpoint schedule (n : nat) (ws : list Z) : list Z :=
  match n with
  | O => ws
  | S n' =>
      let wt := add32 (add32 (sigma1 (nth 1 ws 0)) (nth 6 ws 0))
                      (add32 (sigma0 (nth 14 ws 0)) (nth 15 ws 0)) in
      schedule n' (wt :: ws)
  end.

Definition round (s : list Z) (kw : Z * Z) : list Z :=
  match s with
  | [a; b; c; d; e; f; g; h] =>
      let t1 := add32 (add32 (add32 h (Sigma1 e)) (add32 (Ch e f g) (fst kw))) (snd kw) in
      let t2 := add32 (Sigma0 a) (Maj a b c) in
      [add32 t1 t2; a; b; c; add32 d t1; e; f; g]
  | _ => s
  end.

Definition compress (h : list Z) (block : list Z) : list Z :=
  let w16 := map be_word (chunks 16 4 block) in
  let ws := rev (schedule 48 (rev w16)) in
  let s := fold_left round (combine K ws) h in
  map (fun p => add32 (fst p) (snd p)) (combine h s).

Definition digest (msg : list Z) : list Z :=
  let padded := pad msg in
  let blocks := chunks (length padded / 64)%nat 64 padded in
  flat_map (be_bytes 4) (fold_left compress blocks H0).

Definition block_size : nat := 64.

(** RFC 2104: a key longer than a block is hashed; the key is then padded
    with zeros to the block size. *)
Definition hmac_key (key : list Z) : list Z :=
  let k := if (block_size <? length key)%nat then digest key else key in
  k ++ repeat 0 (block_size - length k)%nat.

Definition hmac (key msg : list Z) : list Z :=
  let k := hmac_key key in
  let ipad := map (Z.lxor 0x36) k in
  let opad := map (Z.lxor 0x5c) k in
  digest (opad ++ digest (ipad ++ msg)).

End SHA256.

Definition hex_digit (n : Z) : ascii :=
  ascii_of_N (Z.to_N (if n <? 10 then 48 + n else 87 + n)).

(** [bytes.hex()]: two lowercase hexadecimal digits for each byte. *)
Fixpoint hex (bs : list Z) : string :=
  match bs with
  | [] => EmptyString
  | b :: r => String (hex_digit ((b mod 256) / 16)) (String (hex_digit (b mod 16)) (hex r))
  end.

Definition byte_val (b : byte) : Z := Z.of_N (Byte.to_N b).

(** [str.encode('utf-8')] on code points below 256: one byte below 128,
    two bytes from 128 on. *)
Definition utf8_char (c : ascii) : list Z :=
  let n := code c in
  if n <? 128 then [n] else [Z.lor 0xC0 (Z.shiftr n 6); Z.lor 0x80 (Z.land n 0x3F)].

Definition utf8_encode (s : string) : list Z :=
  flat_map utf8_char (list_ascii_of_string s).

(* ------------------------------------------------------------------ *)
(** ** The HTTP boundary *)

(** [response.json()] either parses the body or raises a decode error (a
    [ValueError] that is also a [requests.exceptions.RequestException]). *)
Inductive json_body : Type :=
| Json (v : value)
| NotJson (err : string).

Record Response : Type := {
  resp_status : Z;
  resp_headers : list (string * string);
  resp_text : string;
  resp_json : json_body
}.

(** [response.ok]: no status between 400 and 599. *)
Definition resp_ok (r : Response) : bool :=
  negb ((400 <=? resp_status r) && (resp_status r <? 600)).

Definition lower_char (c : ascii) : ascii :=
  let n := code c in
  if (65 <=? n) && (n <=? 90) then ascii_of_N (Z.to_N (n + 32)) else c.

Fixpoint lower (s : string) : string :=
  match s with
  | EmptyString => EmptyString
  | String c s' => String (lower_char c) (lower s')
  end.

(** [response.headers.get(name)]: header names compare without case. *)
Fixpoint header_get (name : string) (hs : list (string * string)) : option string :=
  match hs with
  | [] => None
  | (k, v) :: hs' => if String.eqb (lower k) (lower name) then Some v else header_get name hs'
  end.

(** [int(response.headers.get('retry-after', 60))]; [None] is [ValueError]. *)
Definition retry_after_of (r : Response) : option Z :=
  match header_get "retry-after" (resp_headers r) with
  | Some s => int_of_str s
  | None => Some 60
  end.

Inductive request_exception : Type :=
| ConnectionError
| Timeout
| HTTPError
| OtherRequestException.

(** [_is_retryable_error] *)
Definition _is_retryable_error (e : request_exception) : bool :=
  match e with
  | ConnectionError | Timeout | HTTPError => true
  | OtherRequestException => false
  end.

Inductive outcome : Type :=
| Responded (r : Response)
| Failed (e : request_exception) (text : string).

(** One entry of the [files] mapping: [(filename, stream, content type)].
    [stream] names the open file object, not its bytes: the transport reads
    from it, so the attempts of one call are handed the same object, which
    the first of them has consumed. *)
Record file_part : Type := {
  filename : string;
  stream : N;
  content_type : string
}.

(** The arguments of one [self.session.request(method, url, **request_kwargs)]
    call, and the session headers at the time of the call. *)
Record Request : Type := {
  req_method : string;
  req_url : string;
  req_timeout : Z;
  req_params : option pydict;
  req_headers : option (gmap string string);
  req_files : option (list (string * file_part));
  req_json : option value;
  req_extra : pydict;
  req_session_headers : gmap string string
}.




Inductive event : Type :=
| Sent (q : Request)
| Slept (seconds : Q).

Definition sleeps (log : list event) : list Q :=
  omap (fun e => match e with Slept d => Some d | Sent _ => None end) log.

Definition sent (log : list event) : list Request :=
  omap (fun e => match e with Sent q => Some q | Slept _ => None end) log.

(* ------------------------------------------------------------------ *)
(** ** The client object and its state *)

Record client : Type := {
  api_key : option string;
  jwt_token : value;
  base_url : string;
  retry_attempts : Z;
  retry_delay : Q;
  timeout : Z;
  session_headers : gmap string string
}.

Record state : Type := {
  self : client;
  log : list event
}.

Definition M (A : Type) : Type := state -> result A * state.

Definition ret {A : Type} (a : A) : M A := fun st => (Ret a, st).
Definition raise {A : Type} (e : exn) : M A := fun st => (Raise e, st).
Definition out_of_fuel {A : Type} : M A := fun st => (OutOfFuel, st).

Definition bind {A B : Type} (m : M A) (k : A -> M B) : M B :=
  fun st =>
    match m st with
    | (Ret a, st') => k a st'
    | (Raise e, st') => (Raise e, st')
    | (OutOfFuel, st') => (OutOfFuel, st')
    end.

Notation "x <- m ;; k" := (bind m (fun x => k))
  (at level 100, m at next level, right associativity).
Notation "m ;;; k" := (bind m (fun _ => k))
  (at level 100, right associativity).

Definition lift {A : Type} (r : exn + A) : M A :=
  match r with
  | inl e => raise e
  | inr a => ret a
  end.

Definition get_self : M client := fun st => (Ret (self st), st).

Definition set_self (c : client) : M unit :=
  fun st => (Ret tt, {| self := c; log := log st |}).

Definition emit (e : event) : M unit :=
  fun st => (Ret tt, {| self := self st; log := log st ++ [e] |}).

(** [time.sleep]: a negative length is a [ValueError]. *)
Definition sleep (seconds : Q) : M unit :=
  if Qle_bool 0 seconds then emit (Slept seconds) else raise ValueError.
(* This is [time.sleep] on the lengths it converts: up to [sleep_max] seconds
   in size, and far beyond on most platforms.  A length too large to convert
   is refused with [OverflowError], whatever its sign. *)

(** [range(a, b)] *)
Definition py_range (a b : Z) : list Z :=
  map (fun i => a + Z.of_nat i) (seq 0 (Z.to_nat (b - a))).

(** [s.rstrip('/')] *)
Fixpoint rstrip_slash (s : string) : string :=
  match s with
  | EmptyString => EmptyString
  | String c s' =>
      match rstrip_slash s' with
      | EmptyString => if Ascii.eqb c "/" then EmptyString else String c EmptyString
      | r => String c r
      end
  end.

Definition opt_truthy (s : option string) : bool :=
  match s with
  | Some x => negb (String.eqb x "")
  | None => false
  end.

Definition opt_value (s : option string) : value :=
  match s with
  | Some x => VStr x
  | None => VNone
  end.

Definition with_headers (c : client) (h : gmap string string) : client :=
  {| api_key := api_key c; jwt_token := jwt_token c; base_url := base_url c;
     retry_attempts := retry_attempts c; retry_delay := retry_delay c;
     timeout := timeout c; session_headers := h |}.

Definition with_credentials (c : client) (key : option string) (token : value) : client :=
  {| api_key := key; jwt_token := token; base_url := base_url c;
     retry_attempts := retry_attempts c; retry_delay := retry_delay c;
     timeout := timeout c; session_headers := session_headers c |}.

Definition default_headers : gmap string string :=
  <["Content-Type" := "application/json"]>
    (<["Accept" := "application/json"]>
       (<["User-Agent" := "QA-Platform-Python-SDK/1.1.0"]> ∅)).

Definition default_base_url : string := "http://localhost:3001/api/v1".

Section Client.

(** The transport: what [self.session.request] answers, given everything the
    client did before and the request it sends now. *)
Variable transport : list event -> Request -> outcome.

(** Python's [str()] on values that are not strings, as the f-string of the
    bearer header applies it. *)
Variable py_str : value -> string.

Definition format_value (v : value) : string :=
  match v with
  | VStr s => s
  | _ => py_str v
  end.

(** The headers [_update_auth_headers] installs: the three fixed ones, then
    the bearer token if it is truthy, else the API key if it is truthy. *)
Definition auth_headers (c : client) : gmap string string :=
  if truthy (jwt_token c) then
    <["Authorization" := "Bearer " +:+ format_value (jwt_token c)]> default_headers
  else
    match api_key c with
    | Some k => if opt_truthy (Some k) then <["X-API-Key" := k]> default_headers
                else default_headers
    | None => default_headers
    end.

Definition _update_auth_headers : M unit :=
  c <- get_self ;;
  set_self (with_headers c (auth_headers c)).

(** [QAPlatformAPI.__init__], on a client that has done nothing yet. *)
Definition init (key token : option string) (url : string)
    (attempts : Z) (delay : Q) (tmo : Z) : exn + state :=
  if negb (opt_truthy key) && negb (opt_truthy token) then inl ValueError
  else
    let c := {| api_key := key; jwt_token := opt_value token;
                base_url := rstrip_slash url; retry_attempts := attempts;
                retry_delay := delay; timeout := tmo; session_headers := ∅ |} in
    inr {| self := with_headers c (auth_headers c); log := [] |}.

(** [self.session.request(...)]: the request is recorded, the transport
    answers from the history before it. *)
Definition session_request (q : Request) : M outcome :=
  fun st => (Ret (transport (log st) q),
             {| self := self st; log := log st ++ [Sent q] |}).

Definition files_truthy (files : option (list (string * file_part))) : bool :=
  match files with
  | Some (_ :: _) => true
  | _ => false
  end.

(** The request arguments one attempt prepares. *)
Definition build_request (c : client) (endpoint method : string)
    (params : option pydict) (json_data : value)
    (files : option (list (string * file_part))) (kwargs : pydict) : Request :=
  {| req_method := method;
     req_url := base_url c +:+ endpoint;
     req_timeout := timeout c;
     req_params := params;
     req_headers :=
       if files_truthy files then Some (delete "Content-Type" (session_headers c))
       else None;
     req_files := if files_truthy files then files else None;
     req_json :=
       if files_truthy files then None
       else if truthy json_data then Some json_data else None;
     req_extra := kwargs;
     req_session_headers := session_headers c |}.

(** The backoff of the server-error and network-error branches. *)
Definition backoff (c : client) (attempt : Z) : Q :=
  (retry_delay c * inject_Z (2 ^ (attempt - 1)))%Q.
(* The product is exact, as it is for a float times a power of two that
   stays in range.  From attempt 1025 on, the power no longer converts to a
   float, and the product of a float delay raises [OverflowError]. *)

(** The message of an [AuthenticationError] for a 401 response. *)
Definition auth_message (r : Response) : exn + value :=
  match resp_json r with
  | NotJson _ => inr (VStr "Authentication failed")
  | Json error_data =>
      match py_get error_data "error" (VDict []) with
      | inl e => inl e
      | inr error_info => py_get error_info "message" (VStr "Authentication failed")
      end
  end.

(** The [QAPlatformError] for any other response that is not [ok]. *)
Definition error_of_response (r : Response) : exn :=
  match resp_json r with
  | NotJson _ =>
      mk_QAPlatformError
        (if truthy (VStr (resp_text r)) then VStr (resp_text r) else VStr "Unknown error")
        (Some (resp_status r)) VNone (VList [])
  | Json error_data =>
      match py_get error_data "error" (VDict []) with
      | inl e => e
      | inr error_info =>
          match py_get error_info "message" (VStr "Unknown error"),
                py_get error_info "code" VNone,
                py_get error_info "details" (VList []) with
          | inr message, inr code, inr details =>
              mk_QAPlatformError message (Some (resp_status r)) code details
          | inl e, _, _ | _, inl e, _ | _, _, inl e => e
          end
      end
  end.

(** One pass through the body of the [for attempt in range(...)] loop.
    [None] is [continue]; [Some v] is [return v]. *)
Definition request_attempt (attempt : Z) (endpoint method : string)
    (params : option pydict) (json_data : value)
    (files : option (list (string * file_part))) (kwargs : pydict)
    : M (option value) :=
  c <- get_self ;;
  out <- session_request (build_request c endpoint method params json_data files kwargs) ;;
  match out with
  | Responded response =>
      if resp_status response =? 429 then
        match retry_after_of response with
        | None => raise ValueError
        | Some retry_after =>
            if attempt <=? retry_attempts c then
              sleep (inject_Z retry_after) ;;; ret None
            else
              raise (RateLimitError "Rate limit exceeded and max retries reached" retry_after)
        end
      else if (500 <=? resp_status response) && (attempt <=? retry_attempts c) then
        sleep (backoff c attempt) ;;; ret None
      else if resp_status response =? 401 then
        message <- lift (auth_message response) ;;
        raise (AuthenticationError message)
      else if negb (resp_ok response) then
        raise (error_of_response response)
      else
        match resp_json response with
        | Json v => ret (Some v)
        | NotJson err =>
            (* the decode error is a RequestException and reaches the handler *)
            if (attempt <=? retry_attempts c) && _is_retryable_error OtherRequestException then
              sleep (backoff c attempt) ;;; ret None
            else
              raise (mk_QAPlatformError (VStr ("Network error: " +:+ err)) None VNone VNone)
        end
  | Failed e text =>
      if (attempt <=? retry_attempts c) && _is_retryable_error e then
        sleep (backoff c attempt) ;;; ret None
      else
        raise (mk_QAPlatformError (VStr ("Network error: " +:+ text)) None VNone VNone)
  end.

Fixpoint request_loop (attempts : list Z) (endpoint method : string)
    (params : option pydict) (json_data : value)
    (files : option (list (string * file_part))) (kwargs : pydict)
    : M value :=
  match attempts with
  | [] => raise (mk_QAPlatformError (VStr "Max retries exceeded") None VNone VNone)
  | attempt :: rest =>
      r <- request_attempt attempt endpoint method params json_data files kwargs ;;
      match r with
      | Some v => ret v
      | None => request_loop rest endpoint method params json_data files kwargs
      end
  end.

(** [QAPlatformAPI.request] *)
Definition request (endpoint method : string)
    (params : option pydict) (json_data : value)
    (files : option (list (string * file_part))) (kwargs : pydict)
    : M value :=
  c <- get_self ;;
  request_loop (py_range 1 (retry_attempts c + 1))
    endpoint method params json_data files kwargs.

(** [QAPlatformAPI.login] *)
Definition login (email password : string) : M value :=
  response <- request "/auth/login" "POST" None
                (VDict [("email", VStr email); ("password", VStr password)]) None [] ;;
  has_token <- lift (py_in "token" response) ;;
  (if has_token : bool then
     token <- lift (py_getitem response "token") ;;
     c <- get_self ;;
     set_self (with_credentials c None token) ;;;
     _update_auth_headers
   else ret tt) ;;;
  ret response.

(** [QAPlatformAPI.logout] *)
Definition logout : M value :=
  response <- request "/auth/logout" "POST" None VNone None [] ;;
  c <- get_self ;;
  set_self (with_credentials c (api_key c) VNone) ;;;
  _update_auth_headers ;;;
  ret response.

(** [QAPlatformAPI.get_files]: the [None] values are removed from the
    filters, nothing else is. *)
Definition clean_filters (filters : pydict) : pydict :=
  filter (fun kv => is_none (snd kv) = false) filters.

Definition get_files (filters : pydict) : M value :=
  request "/files" "GET" (Some (clean_filters filters)) VNone None [].

(** [QAPlatformAPI.get_api_keys] hands its filters over as they are. *)
Definition get_api_keys (filters : pydict) : M value :=
  request "/api-keys" "GET" (Some filters) VNone None [].

(** The [while True] loop of [paginate]; [fuel] bounds the number of pages. *)
Fixpoint paginate_loop (fuel : nat) (endpoint : string) (options : pydict)
    (limit : value) (results : list value) (offset : Z) : M (list value) :=
  match fuel with
  | O => out_of_fuel
  | S fuel' =>
      let params := dict_set "offset" (VInt offset) (dict_set "limit" limit options) in
      response <- request endpoint "GET" (Some params) VNone None [] ;;
      has_data <- lift (py_in "data" response) ;;
      if has_data : bool then
        data <- lift (py_getitem response "data") ;;
        if truthy data then
          match py_iter data, as_int limit with
          | None, _ => raise TypeError          (* results.extend(data) *)
          | Some _, None => raise TypeError     (* offset += limit *)
          | Some items, Some lim =>
              let results' := results ++ items in
              let offset' := offset + lim in
              if Z.of_nat (length items) <? lim then ret results'
              else
                pagination <- lift (py_get response "pagination" (VDict [])) ;;
                total <- lift (py_get pagination "total" (VInt 0)) ;;
                match as_int total with
                | None => raise TypeError
                | Some t =>
                    if t <=? offset' then ret results'
                    else paginate_loop fuel' endpoint options limit results' offset'
                end
          end
        else ret results
      else ret results
  end.

(** [QAPlatformAPI.paginate] *)
Definition paginate (fuel : nat) (endpoint : string) (options : pydict) : M (list value) :=
  let (limit, options') := dict_pop "limit" (VInt 20) options in
  paginate_loop fuel endpoint options' limit [] 0.

End Client.

(* ------------------------------------------------------------------ *)
(** ** Webhook signatures *)

Definition is_ascii_str (s : string) : bool :=
  forallb (fun c => code c <? 128) (list_ascii_of_string s).

(** [hmac.compare_digest] on two [str]: both must be ASCII, otherwise it
    raises [TypeError]. *)
Definition compare_digest (a b : string) : exn + bool :=
  if is_ascii_str a && is_ascii_str b then inr (String.eqb a b) else inl TypeError.

Definition expected_signature (payload : list byte) (secret : string) : string :=
  hex (SHA256.hmac (utf8_encode secret) (map byte_val payload)).

(** [QAPlatformAPI.validate_webhook_signature] *)
Definition validate_webhook_signature (payload : list byte) (signature secret : string)
    : exn + bool :=
  compare_digest signature (expected_signature payload secret).

(* ------------------------------------------------------------------ *)
(** ** Servers used to exercise the client *)

Definition json_response (status : Z) (headers : list (string * string)) (v : value)
    : Response :=
  {| resp_status := status; resp_headers := headers; resp_text := "";
     resp_json := Json v |}.

Definition text_response (status : Z) (headers : list (string * string)) (text : string)
    : Response :=
  {| resp_status := status; resp_headers := headers; resp_text := text;
     resp_json := NotJson "Expecting value" |}.

(** A server that gives the same answer to every request. *)
Definition always (r : Response) : list event -> Request -> outcome :=
  fun _ _ => Responded r.

Definition param_int (name : string) (q : Request) : Z :=
  match req_params q with
  | Some ps => default 0 (dict_lookup name ps ≫= as_int)
  | None => 0
  end.

(** [items[offset : offset + limit]] for non-negative bounds. *)
Definition slice (items : list value) (offset limit : Z) : list value :=
  firstn (Z.to_nat limit) (skipn (Z.to_nat offset) items).

(** A listing endpoint over a fixed collection: it serves the page the query
    asks for and reports the size of the collection as the total. *)
Definition collection_page (items : list value) (offset limit : Z) : value :=
  VDict [("data", VList (slice items offset limit));
         ("pagination", VDict [("total", VInt (Z.of_nat (length items)));
                               ("limit", VInt limit); ("offset", VInt offset)])].

Definition collection_server (items : list value) : list event -> Request -> outcome :=
  fun _ q =>
    Responded (json_response 200 []
      (collection_page items (param_int "offset" q) (param_int "limit" q))).

(** A client built by the constructor with an API key and the given retry
    policy, or, should the constructor refuse, an empty shell. *)
Definition blank_client : client :=
  {| api_key := None; jwt_token := VNone; base_url := ""; retry_attempts := 0;
     retry_delay := 0; timeout := 0; session_headers := ∅ |}.

Definition new_client (key token : option string) (attempts : Z) (delay : Q) : state :=
  match init (fun _ => "") key token default_base_url attempts delay 30 with
  | inr st => st
  | inl _ => {| self := blank_client; log := [] |}
  end.

(** The state after further events, the client object unchanged. *)
Definition after (st : state) (evs : list event) : state :=
  {| self := self st; log := log st ++ evs |}.

(** The error [request] raises when its loop runs off the end. *)
Definition max_retries_exceeded : exn :=
  QAPlatformError (VStr "Max retries exceeded") None VNone (VList []).

(** A page of the documented shape: an object whose [data], when present, is
    an array, and whose [pagination.total] is an integer. *)
Definition documented_page (response : value) (items : option (list value)) (total : Z)
    : Prop :=
  exists d p,
    response = VDict d
    /\ dict_lookup "data" d = (VList <$> items)
    /\ dict_lookup "pagination" d = Some (VDict p)
    /\ dict_lookup "total" p = Some (VInt total).

Definition page_items (items : option (list value)) : list value := default [] items.

(** The stop condition in the words of the specification: the page has no
    data or empty data, or fewer items than the limit, or the reported total
    is at most the new offset. *)
Definition stops (limit new_offset : Z) (items : option (list value)) (total : Z) : bool :=
  match items with
  | None | Some [] => true
  | Some l => (Z.of_nat (length l) <? limit) || (total <=? new_offset)
  end.

(** The query of the page request at a given offset. *)
Definition page_params (options : pydict) (limit : value) (offset : Z) : pydict :=
  dict_set "offset" (VInt offset) (dict_set "limit" limit options).

Definition page_request (c : client) (endpoint : string) (options : pydict)
    (limit : value) (offset : Z) : Request :=
  build_request c endpoint "GET" (Some (page_params options limit offset)) VNone None [].

(** The events of [n] consecutive page fetches from offset [o] on. *)
Definition page_fetches (c : client) (endpoint : string) (options : pydict)
    (L : Z) (o : Z) (n : nat) : list event :=
  map (fun i => Sent (page_request c endpoint options (VInt L) (o + Z.of_nat i * L)))
      (seq 0 n).

(** A server that fails twice with 503 and then answers. *)
Definition flaky_twice : list event -> Request -> outcome :=
  fun h _ =>
    if (length (sent h) <? 2)%nat
    then Responded (text_response 503 [] "unavailable")
    else Responded (json_response 200 [] (VDict [("status", VStr "ok")])).

(** The session headers are the ones [_update_auth_headers] derives from the
    client's current credentials. *)
Definition headers_in_sync (py_str : value -> string) (st : state) : Prop :=
  session_headers (self st) = auth_headers py_str (self st).

(** The requests of a run of [paginate]: for each page in turn, some number
    of identical requests at that page's offset. *)
Fixpoint page_requests (c : client) (endpoint : string) (options : pydict)
    (limit : value) (step offset : Z) (counts : list nat) : list Request :=
  match counts with
  | [] => []
  | n :: counts' =>
      repeat (page_request c endpoint options limit offset) n
      ++ page_requests c endpoint options limit step (offset + step) counts'
  end.

(** A listing endpoint that always has more: every page is full and the
    total it reports lies beyond the page. *)
Definition endless_server : list event -> Request -> outcome :=
  fun _ q =>
    let offset := param_int "offset" q in
    let limit := param_int "limit" q in
    Responded (json_response 200 []
      (VDict [("data", VList (repeat (VInt 0) (Z.to_nat limit)));
              ("pagination", VDict [("total", VInt (offset + 2 * limit))])])).

(** A lowercase hexadecimal digit. *)
Definition is_lower_hex (c : ascii) : bool :=
  let n := code c in
  ((48 <=? n) && (n <=? 57)) || ((97 <=? n) && (n <=? 102)).

(* ------------------------------------------------------------------ *)
(** ** File upload and the client factory *)

(** [FileUploadOptions] *)
Record FileUploadOptions : Type := {
  source_language : option string;
  target_language : option string;
  assessment_model : option string;
  priority : option string;
  auto_process : option bool;
  webhook_url : option string
}.

(** [FileUploadOptions()]: the defaults of the dataclass. *)
Definition default_upload_options : FileUploadOptions :=
  {| source_language := None; target_language := None;
     assessment_model := Some "gpt-4"; priority := Some "normal";
     auto_process := Some true; webhook_url := None |}.

(** [options.__dict__]: the fields in the order of their declaration. *)
Definition options_dict (o : FileUploadOptions) : pydict :=
  [("source_language", opt_value (source_language o));
   ("target_language", opt_value (target_language o));
   ("assessment_model", opt_value (assessment_model o));
   ("priority", opt_value (priority o));
   ("auto_process", match auto_process o with Some b => VBool b | None => VNone end);
   ("webhook_url", opt_value (webhook_url o))].

(** [str(value)] as the form data applies it: a string is itself, a boolean
    is "True" or "False". *)
Definition form_str (py_str : value -> string) (v : value) : string :=
  match v with
  | VBool true => "True"
  | VBool false => "False"
  | _ => format_value py_str v
  end.

(** [data[field] = str(value)] for every field whose value is not [None]. *)
Definition add_fields (py_str : value -> string) (fields data : pydict) : pydict :=
  fold_left
    (fun data kv =>
       if is_none (snd kv) then data
       else dict_set (fst kv) (VStr (form_str py_str (snd kv))) data)
    fields data.

(** The form data [_upload_with_files] builds: the option fields first, then
    the extra keyword arguments on top. *)
Definition form_data (py_str : value -> string) (options : option FileUploadOptions)
    (extra_data : pydict) : pydict :=
  add_fields py_str extra_data
    (match options with
     | Some o => add_fields py_str (options_dict o) []
     | None => []
     end).

(** [QAPlatformAPI._upload_with_files] *)
Definition _upload_with_files (transport : list event -> Request -> outcome)
    (py_str : value -> string) (files : list (string * file_part))
    (options : option FileUploadOptions) (extra_data : pydict) : M value :=
  request transport "/files" "POST" None VNone (Some files)
    [("data", VDict (form_data py_str options extra_data))].

Definition base_urls : list (string * string) :=
  [("development", "http://localhost:3001/api/v1");
   ("staging", "https://staging-api.qa-platform.com/v1");
   ("production", "https://api.qa-platform.com/v1")].

Fixpoint assoc_str (k : string) (l : list (string * string)) : option string :=
  match l with
  | [] => None
  | (k', v) :: l' => if String.eqb k k' then Some v else assoc_str k l'
  end.

(** [create_api_client]: the constructor with its default retry policy and
    the base URL of the environment, the development one when the name is
    not known. *)
Definition create_api_client (py_str : value -> string) (key token : option string)
    (environment : string) : exn + state :=
  init py_str key token
    (default "http://localhost:3001/api/v1" (assoc_str environment base_urls))
    3 1 30.

(** The pairs of the query string, as [requests] encodes [params]: a list
    stands for its items, a dict for its keys, every other value for itself;
    an item that is [None] is dropped; each one left gives one [key=item]
    pair, in order (an empty string gives [key=]). *)
Definition query_values (v : value) : list value :=
  filter (fun x => is_none x = false)
    (match v with
     | VList l => l
     | VDict d => map (fun kv => VStr (fst kv)) d
     | _ => [v]
     end).

Definition query_entries (params : option pydict) : list (string * value) :=
  match params with
  | Some ps => flat_map (fun kv => map (pair (fst kv)) (query_values (snd kv))) ps
  | None => []
  end.

(** A sleep length, in seconds, that [time.sleep] takes on every platform
    (46 days); far beyond it the conversion of the length overflows. *)
Definition sleep_max : Q := 4000000.

(* ================================================================== *)
(** * Properties *)

(** ** Sanity checks of the library models against published vectors *)

Example sha256_constants :
  length SHA256.K = 64%nat
  /\ nth 0 SHA256.K 0 = 0x428a2f98 /\ nth 63 SHA256.K 0 = 0xc67178f2
  /\ nth 0 SHA256.H0 0 = 0x6a09e667 /\ nth 7 SHA256.H0 0 = 0x5be0cd19.
Proof. vm_compute. repeat split. Qed.

Example sha256_abc :
  hex (SHA256.digest (utf8_encode "abc"))
  = "ba7816bf8f01cfea414140de5dae2223b00361a396177a9cb410ff61f20015ad".
Proof. vm_compute. reflexivity. Qed.

Example hmac_sha256_rfc4231_case2 :
  hex (SHA256.hmac (utf8_encode "Jefe") (utf8_encode "what do ya want for nothing?"))
  = "5bdcc146bf60754e6a042426089575c75a003f089d2739839dec58b964ec3843".
Proof. vm_compute. reflexivity. Qed.

Example int_of_str_examples :
  int_of_str "5" = Some 5 /\ int_of_str " 120 " = Some 120
  /\ int_of_str "abc" = None /\ int_of_str "" = None
  /\ int_of_str "Wed, 21 Oct 2015 07:28:00 GMT" = None.
Proof. vm_compute. repeat split. Qed.

(** ** Event logs *)

Lemma sleeps_app (l1 l2 : list event) : sleeps (l1 ++ l2) = sleeps l1 ++ sleeps l2.
Proof. apply omap_app. Qed.

Lemma sent_app (l1 l2 : list event) : sent (l1 ++ l2) = sent l1 ++ sent l2.
Proof. apply omap_app. Qed.

Lemma py_range_bound (a b x : Z) : In x (py_range a b) -> a <= x < b.
Proof.
  unfold py_range. intros H. apply in_map_iff in H as (i & <- & Hi).
  apply in_seq in Hi. lia.
Qed.

Lemma py_range_length (a b : Z) : length (py_range a b) = Z.to_nat (b - a).
Proof. unfold py_range. rewrite length_map, length_seq. reflexivity. Qed.

Lemma backoff_nonneg (c : client) (attempt : Z) :
  (0 <= retry_delay c)%Q -> Qle_bool 0 (backoff c attempt) = true.
Proof.
  intros HD. apply Qle_bool_iff. unfold backoff.
  apply Qmult_le_0_compat; [exact HD|].
  unfold Qle; simpl. pose proof (Z.pow_nonneg 2 (attempt - 1)). lia.
Qed.

Section RequestProperties.

Variable transport : list event -> Request -> outcome.

Variables (endpoint method : string) (params : option pydict) (json_data : value).
Variables (files : option (list (string * file_part))) (kwargs : pydict).

Let the_request (c : client) : Request :=
  build_request c endpoint method params json_data files kwargs.

Let attempt_once (attempt : Z) : M (option value) :=
  request_attempt transport attempt endpoint method params json_data files kwargs.

Let loop (attempts : list Z) : M value :=
  request_loop transport attempts endpoint method params json_data files kwargs.

Lemma after_after st evs1 evs2 : after (after st evs1) evs2 = after st (evs1 ++ evs2).
Proof. unfold after; simpl. by rewrite <- app_assoc. Qed.

Lemma after_nil st : after st [] = st.
Proof. destruct st; unfold after; simpl. by rewrite app_nil_r. Qed.

Ltac run_attempt :=
  unfold attempt_once, request_attempt, bind, get_self, session_request, sleep,
    emit, ret, raise, lift, after; simpl.

(** A response with a server-error status on an attempt within the retry
    budget: sleep the backoff and go round again. *)
Lemma attempt_server_error (attempt : Z) (st : state) (r : Response) :
  transport (log st) (the_request (self st)) = Responded r ->
  resp_status r <> 429 -> 500 <= resp_status r ->
  attempt <= retry_attempts (self st) ->
  (0 <= retry_delay (self st))%Q ->
  attempt_once attempt st
  = (Ret None, after st [Sent (the_request (self st));
                         Slept (backoff (self st) attempt)]).
Proof.
  intros Ht H429 H500 Hatt HD. run_attempt. unfold the_request in *; simpl in *.
  rewrite Ht.
  destruct (Z.eqb_spec (resp_status r) 429) as [|_]; [contradiction|].
  destruct (Z.leb_spec 500 (resp_status r)); [|lia].
  destruct (Z.leb_spec attempt (retry_attempts (self st))); [|lia]. simpl.
  rewrite backoff_nonneg by assumption. simpl.
  by rewrite <- app_assoc.
Qed.

(** A 429 response on an attempt within the retry budget: sleep what the
    header says and go round again. *)
Lemma attempt_rate_limited (attempt : Z) (st : state) (r : Response) (ra : Z) :
  transport (log st) (the_request (self st)) = Responded r ->
  resp_status r = 429 -> retry_after_of r = Some ra -> 0 <= ra ->
  attempt <= retry_attempts (self st) ->
  attempt_once attempt st
  = (Ret None, after st [Sent (the_request (self st)); Slept (inject_Z ra)]).
Proof.
  intros Ht H429 Hra Hpos Hatt. run_attempt. unfold the_request in *; simpl in *.
  rewrite Ht, H429, Hra. simpl.
  destruct (Z.leb_spec attempt (retry_attempts (self st))); [|lia].
  assert (Qle_bool 0 (inject_Z ra) = true) as ->.
  { apply Qle_bool_iff. unfold Qle; simpl. lia. }
  simpl. by rewrite <- app_assoc.
Qed.

(** When every attempt of the list sleeps and continues, the loop runs off its
    end and raises "Max retries exceeded". *)
Lemma loop_all_continue (pause : Z -> Q) (attempts : list Z) :
  forall st,
    (forall a st', In a attempts -> self st' = self st ->
       attempt_once a st'
       = (Ret None, after st' [Sent (the_request (self st)); Slept (pause a)])) ->
    loop attempts st
    = (Raise (QAPlatformError (VStr "Max retries exceeded") None VNone (VList [])),
       after st (flat_map (fun a => [Sent (the_request (self st)); Slept (pause a)])
                          attempts)).
Proof.
  induction attempts as [|a rest IH]; intros st Hstep.
  - simpl. unfold raise. by rewrite after_nil.
  - unfold loop. simpl. unfold bind at 1.
    fold (attempt_once a). rewrite (Hstep a st) by (simpl; auto).
    simpl. unfold loop in IH. rewrite IH.
    + simpl. rewrite after_after. reflexivity.
    + intros a' st' Hin Hself. simpl in Hself.
      rewrite (Hstep a' st'); simpl; auto.
Qed.

Lemma sleeps_of_rounds (q : Request) (pause : Z -> Q) (attempts : list Z) :
  sleeps (flat_map (fun a => [Sent q; Slept (pause a)]) attempts) = map pause attempts.
Proof. induction attempts as [|a rest IH]; simpl; [done|]. unfold sleeps in *. simpl. by rewrite IH. Qed.

Lemma sent_of_rounds (q : Request) (pause : Z -> Q) (attempts : list Z) :
  sent (flat_map (fun a => [Sent q; Slept (pause a)]) attempts)
  = repeat q (length attempts).
Proof. induction attempts as [|a rest IH]; simpl; [done|]. unfold sent in *. simpl. by rewrite IH. Qed.

End RequestProperties.

(** ** The retry loop on a server that never recovers *)

(** C1. On a server that answers every attempt with a 5xx status, [request]
    with [retry_attempts = N] and [retry_delay = D >= 0] sends N requests and
    sleeps D, 2D, 4D, ... (D * 2^(k-1) after attempt k, also after the last
    one), as the claim says of the delays; but it then leaves the loop and
    raises the generic "Max retries exceeded" error, which carries no status
    code and no body, instead of the error built from the server's last
    response. *)
Theorem request_always_server_error :
  forall (transport : list event -> Request -> outcome)
         endpoint method params json_data files kwargs (st : state),
    (forall h q, exists r, transport h q = Responded r /\ 500 <= resp_status r) ->
    (0 <= retry_delay (self st))%Q ->
    let c := self st in
    let q := build_request c endpoint method params json_data files kwargs in
    let attempts := py_range 1 (retry_attempts c + 1) in
    exists st',
      request transport endpoint method params json_data files kwargs st
      = (Raise max_retries_exceeded, st')
      /\ exn_status_code max_retries_exceeded = None
      /\ self st' = self st
      /\ sleeps (log st')
         = sleeps (log st)
           ++ map (fun k => (retry_delay c * inject_Z (2 ^ (k - 1)))%Q) attempts
      /\ sent (log st') = sent (log st) ++ repeat q (Z.to_nat (retry_attempts c)).
Proof.
  intros transport endpoint method params json_data files kwargs st Hsrv HD c q attempts.
  subst c q attempts.
  eexists. split; [|split; [reflexivity|]].
  - unfold request, bind, get_self. simpl.
    apply (loop_all_continue transport endpoint method params json_data files kwargs
             (backoff (self st))).
    intros a st' Hin Hself.
    destruct (Hsrv (log st')
                (build_request (self st') endpoint method params json_data files kwargs))
      as (r & Hr & H5).
    apply py_range_bound in Hin.
    rewrite (attempt_server_error transport endpoint method params json_data files
               kwargs a st' r Hr); rewrite ?Hself; try lia; auto.
  - simpl. split; [reflexivity|]. split.
    + rewrite sleeps_app, sleeps_of_rounds. reflexivity.
    + rewrite sent_app, sent_of_rounds, py_range_length.
      do 2 f_equal. lia.
Qed.

Lemma request_always_server_error_witness :
  exists st',
    request (always (json_response 500 [] (VDict []))) "/health" "GET" None VNone None []
      (new_client (Some "key") None 3 1)
    = (Raise max_retries_exceeded, st')
    /\ sleeps (log st') = [1; 2; 4]%Q
    /\ length (sent (log st')) = 3%nat.
Proof.
  destruct (request_always_server_error
              (always (json_response 500 [] (VDict []))) "/health" "GET" None VNone None []
              (new_client (Some "key") None 3 1)) as (st' & Hrun & _ & _ & Hsl & Hsent).
  - intros h q. exists (json_response 500 [] (VDict [])). split; [reflexivity|].
    simpl. lia.
  - unfold Qle. simpl. lia.
  - exists st'. split; [exact Hrun|]. split.
    + rewrite Hsl. reflexivity.
    + rewrite Hsent. reflexivity.
Defined.

(** C2. On a server that answers every attempt with 429 and a [retry-after]
    header that parses to [ra >= 0], [request] sleeps [ra] seconds after each
    of its N attempts and then raises the generic "Max retries exceeded"
    error: the branch that raises [RateLimitError] is never reached.  With
    N = 0 no request is sent at all. *)
Theorem request_always_rate_limited :
  forall (transport : list event -> Request -> outcome)
         endpoint method params json_data files kwargs (st : state) (ra : Z),
    (forall h q, exists r, transport h q = Responded r /\ resp_status r = 429
                           /\ retry_after_of r = Some ra) ->
    0 <= ra ->
    let c := self st in
    let q := build_request c endpoint method params json_data files kwargs in
    exists st',
      request transport endpoint method params json_data files kwargs st
      = (Raise max_retries_exceeded, st')
      /\ self st' = self st
      /\ sleeps (log st')
         = sleeps (log st) ++ repeat (inject_Z ra) (Z.to_nat (retry_attempts c))
      /\ sent (log st') = sent (log st) ++ repeat q (Z.to_nat (retry_attempts c)).
Proof.
  intros transport endpoint method params json_data files kwargs st ra Hsrv Hra c q.
  subst c q.
  eexists. split.
  - unfold request, bind, get_self. simpl.
    apply (loop_all_continue transport endpoint method params json_data files kwargs
             (fun _ => inject_Z ra)).
    intros a st' Hin Hself.
    destruct (Hsrv (log st')
                (build_request (self st') endpoint method params json_data files kwargs))
      as (r & Hr & H429 & Hafter).
    apply py_range_bound in Hin.
    rewrite (attempt_rate_limited transport endpoint method params json_data files
               kwargs a st' r ra Hr); rewrite ?Hself; try lia; auto.
  - simpl. split; [reflexivity|]. split.
    + rewrite sleeps_app, sleeps_of_rounds, map_const, py_range_length.
      do 2 f_equal. lia.
    + rewrite sent_app, sent_of_rounds, py_range_length.
      do 2 f_equal. lia.
Qed.

Lemma request_always_rate_limited_witness :
  exists st',
    request (always (json_response 429 [("retry-after", "5")] (VDict [])))
      "/health" "GET" None VNone None [] (new_client (Some "key") None 0 1)
    = (Raise max_retries_exceeded, st')
    /\ sleeps (log st') = []
    /\ sent (log st') = [].
Proof.
  destruct (request_always_rate_limited
              (always (json_response 429 [("retry-after", "5")] (VDict [])))
              "/health" "GET" None VNone None []
              (new_client (Some "key") None 0 1) 5) as (st' & Hrun & _ & Hsl & Hsent).
  - intros h q. exists (json_response 429 [("retry-after", "5")] (VDict [])).
    repeat split.
  - lia.
  - exists st'. split; [exact Hrun|]. split.
    + rewrite Hsl. reflexivity.
    + rewrite Hsent. reflexivity.
Defined.
(** With no retry budget the loop body never runs: nothing is sent, whatever
    the server would have answered. *)
Lemma request_no_attempts (transport : list event -> Request -> outcome)
    endpoint method params json_data files kwargs (st : state) :
  retry_attempts (self st) <= 0 ->
  request transport endpoint method params json_data files kwargs st
  = (Raise max_retries_exceeded, st).
Proof.
  intros HN. unfold request, bind, get_self. simpl.
  unfold py_range. replace (Z.to_nat (retry_attempts (self st) + 1 - 1)) with 0%nat by lia.
  reflexivity.
Qed.

Lemma py_get_error v k d e : py_get v k d = inl e -> e = AttributeError.
Proof. destruct v; simpl; congruence. Qed.

Lemma error_of_response_kind r :
  error_of_response r = AttributeError
  \/ exists m sc code det, error_of_response r = QAPlatformError m sc code det.
Proof.
  unfold error_of_response, mk_QAPlatformError.
  repeat case_match; eauto 10;
    match goal with H : py_get _ _ _ = inl _ |- _ => apply py_get_error in H; subst; auto end.
Qed.

Ltac run_monad :=
  unfold request_attempt, bind, get_self, set_self, session_request, sleep,
    emit, ret, raise, lift, out_of_fuel; simpl.

Lemma request_attempt_self transport attempt endpoint method params json_data files kwargs st :
  self (snd (request_attempt transport attempt endpoint method params json_data files kwargs st))
  = self st.
Proof.
  run_monad. repeat (case_match; unfold raise, ret in *; simplify_eq/=; try reflexivity).
Qed.

Lemma request_attempt_no_rate_limit transport attempt endpoint method params json_data
    files kwargs st m ra :
  attempt <= retry_attempts (self st) ->
  fst (request_attempt transport attempt endpoint method params json_data files kwargs st)
  <> Raise (RateLimitError m ra).
Proof.
  intros Hatt. run_monad.
  destruct (Z.leb_spec attempt (retry_attempts (self st))); [|lia].
  repeat (case_match; unfold raise, ret in *; simplify_eq/=; try congruence).
  all: try (destruct (error_of_response_kind r) as [->|(?&?&?&?&->)]; congruence).
  all: try (unfold auth_message in *; repeat case_match; simplify_eq;
      match goal with H : py_get _ _ _ = inl _ |- _ => apply py_get_error in H; subst; congruence end).
  all: unfold mk_QAPlatformError; congruence.
Qed.

Lemma request_loop_no_rate_limit transport attempts endpoint method params json_data
    files kwargs m ra :
  forall st,
  Forall (fun a => a <= retry_attempts (self st)) attempts ->
  fst (request_loop transport attempts endpoint method params json_data files kwargs st)
  <> Raise (RateLimitError m ra).
Proof.
  induction attempts as [|a rest IH]; intros st Hall.
  - simpl. unfold raise, mk_QAPlatformError. simpl. congruence.
  - inversion Hall as [|? ? Ha Hrest]; subst. simpl. unfold bind at 1.
    pose proof (request_attempt_no_rate_limit transport a endpoint method params json_data
                  files kwargs st m ra Ha) as Hno.
    pose proof (request_attempt_self transport a endpoint method params json_data
                  files kwargs st) as Hself.
    destruct (request_attempt transport a endpoint method params json_data files kwargs st)
      as [[[v|]|e|] st1]; simpl in *; try congruence.
    apply IH. rewrite Hself. exact Hrest.
Qed.

Lemma request_never_rate_limit_error transport endpoint method params json_data
    files kwargs st m ra :
  fst (request transport endpoint method params json_data files kwargs st)
  <> Raise (RateLimitError m ra).
Proof.
  unfold request, bind, get_self. simpl.
  apply request_loop_no_rate_limit.
  apply List.Forall_forall. intros a Ha. apply py_range_bound in Ha. lia.
Qed.

(** ** Authentication failures *)

Lemma py_range_cons (a b : Z) : a < b -> py_range a b = a :: py_range (a + 1) b.
Proof.
  intros Hab. unfold py_range.
  replace (Z.to_nat (b - a)) with (S (Z.to_nat (b - (a + 1)))) by lia.
  rewrite <- cons_seq. simpl. f_equal; [lia|].
  rewrite <- seq_shift, map_map. apply map_ext. intros i. lia.
Qed.

(** The attempt that receives a 401 ends the call: it raises, and the only
    event it adds is the request itself. *)
Lemma attempt_unauthorized transport attempt endpoint method params json_data files
    kwargs (st : state) (r : Response) :
  transport (log st) (build_request (self st) endpoint method params json_data files kwargs)
  = Responded r ->
  resp_status r = 401 ->
  request_attempt transport attempt endpoint method params json_data files kwargs st
  = (Raise (match auth_message r with
            | inl e => e
            | inr message => AuthenticationError message
            end),
     after st [Sent (build_request (self st) endpoint method params json_data files kwargs)]).
Proof.
  intros Ht H401. run_monad. rewrite Ht, H401. simpl.
  destruct (auth_message r); reflexivity.
Qed.

(** A 401 response is never retried, whatever the attempt number and the
    retry budget: the loop stops at that attempt with no sleep and no further
    request.  The error is [AuthenticationError]; its message is
    [error.message] of the JSON body, and "Authentication failed" when the
    body is not JSON or the object has no [error] or no [message]. *)
Theorem unauthorized_never_retried :
  forall (transport : list event -> Request -> outcome)
         endpoint method params json_data files kwargs
         (attempt : Z) (rest : list Z) (st : state) (r : Response),
    let q := build_request (self st) endpoint method params json_data files kwargs in
    let run := request_loop transport (attempt :: rest)
                 endpoint method params json_data files kwargs st in
    let failed message := (Raise (A := value) (AuthenticationError message), after st [Sent q]) in
    transport (log st) q = Responded r ->
    resp_status r = 401 ->
    (exists e, run = (Raise e, after st [Sent q]))
    /\ (forall err, resp_json r = NotJson err ->
          run = failed (VStr "Authentication failed"))
    /\ (forall d info message, resp_json r = Json (VDict d) ->
          dict_lookup "error" d = Some (VDict info) ->
          dict_lookup "message" info = Some message ->
          run = failed message)
    /\ (forall d info, resp_json r = Json (VDict d) ->
          dict_lookup "error" d = Some (VDict info) ->
          dict_lookup "message" info = None ->
          run = failed (VStr "Authentication failed"))
    /\ (forall d, resp_json r = Json (VDict d) ->
          dict_lookup "error" d = None ->
          run = failed (VStr "Authentication failed"))
    /\ (1 <= retry_attempts (self st) ->
          request transport endpoint method params json_data files kwargs st = run).
Proof.
  intros transport endpoint method params json_data files kwargs attempt rest st r
    q run failed Ht H401.
  assert (Hrun : run = (Raise (match auth_message r with
                               | inl e => e
                               | inr message => AuthenticationError message
                               end), after st [Sent q])).
  { subst run. simpl. unfold bind at 1.
    rewrite (attempt_unauthorized _ _ _ _ _ _ _ _ _ r Ht H401). reflexivity. }
  repeat split.
  - eexists. exact Hrun.
  - intros err Hj. rewrite Hrun. unfold auth_message. rewrite Hj. reflexivity.
  - intros d info message Hj He Hm. rewrite Hrun. unfold auth_message.
    rewrite Hj. simpl. rewrite He. simpl. rewrite Hm. reflexivity.
  - intros d info Hj He Hm. rewrite Hrun. unfold auth_message.
    rewrite Hj. simpl. rewrite He. simpl. rewrite Hm. reflexivity.
  - intros d Hj He. rewrite Hrun. unfold auth_message.
    rewrite Hj. simpl. rewrite He. reflexivity.
  - intros HN. rewrite Hrun. unfold request, bind, get_self. simpl.
    rewrite py_range_cons by lia. simpl. unfold bind at 1.
    rewrite (attempt_unauthorized _ _ _ _ _ _ _ _ _ r Ht H401). reflexivity.
Qed.

Lemma unauthorized_never_retried_witness :
  request (always (json_response 401 []
                     (VDict [("error", VDict [("message", VStr "token expired")])])))
    "/files" "GET" None VNone None [] (new_client (Some "key") None 3 1)
  = (Raise (AuthenticationError (VStr "token expired")),
     after (new_client (Some "key") None 3 1)
       [Sent (build_request (self (new_client (Some "key") None 3 1))
                "/files" "GET" None VNone None [])]).
Proof.
  pose proof (unauthorized_never_retried
                (always (json_response 401 []
                           (VDict [("error", VDict [("message", VStr "token expired")])])))
                "/files" "GET" None VNone None [] 1 (py_range 2 4)
                (new_client (Some "key") None 3 1)
                (json_response 401 []
                   (VDict [("error", VDict [("message", VStr "token expired")])]))
                eq_refl eq_refl) as (_ & _ & Hmsg & _ & _ & Hreq).
  rewrite Hreq by (simpl; lia).
  apply (Hmsg [("error", VDict [("message", VStr "token expired")])]
              [("message", VStr "token expired")]); reflexivity.
Defined.

(** A 401 whose JSON body is not an object is outside the documented error
    shape: [.get] fails on it and the [AttributeError] escapes, still without
    a retry. *)
Example unauthorized_array_body :
  request (always (json_response 401 [] (VList []))) "/files" "GET" None VNone None []
    (new_client (Some "key") None 3 1)
  = (Raise AttributeError,
     after (new_client (Some "key") None 3 1)
       [Sent (build_request (self (new_client (Some "key") None 3 1))
                "/files" "GET" None VNone None [])]).
Proof. reflexivity. Qed.

(** C6. A 401 whose body parses as JSON but is not an object, or is an
    object whose [error] is not an object, does not end in
    [AuthenticationError]: [.get] fails on the value, the handler catches
    [ValueError] only, and the [AttributeError] escapes [request], after the
    one request.  And with [retry_attempts <= 0] no request is sent at all,
    so that a server answering 401 is met with "Max retries exceeded". *)
Theorem unauthorized_malformed_body_raises :
  (forall (transport : list event -> Request -> outcome)
          endpoint method params json_data files kwargs
          (attempt : Z) (rest : list Z) (st : state) (r : Response) (v : value),
      let q := build_request (self st) endpoint method params json_data files kwargs in
      transport (log st) q = Responded r ->
      resp_status r = 401 ->
      resp_json r = Json v ->
      (forall d, v <> VDict d)
      \/ (exists d e, v = VDict d /\ dict_lookup "error" d = Some e
                      /\ forall info, e <> VDict info) ->
      request_loop transport (attempt :: rest) endpoint method params json_data
        files kwargs st
      = (Raise AttributeError, after st [Sent q]))
  /\ (forall (transport : list event -> Request -> outcome)
             endpoint method params json_data files kwargs (st : state),
        retry_attempts (self st) <= 0 ->
        request transport endpoint method params json_data files kwargs st
        = (Raise max_retries_exceeded, st)).
Proof.
  split.
  - intros transport endpoint method params json_data files kwargs attempt rest st r v
      q Ht H401 Hj Hshape.
    simpl. unfold bind at 1.
    rewrite (attempt_unauthorized _ _ _ _ _ _ _ _ _ r Ht H401).
    unfold auth_message. rewrite Hj.
    destruct Hshape as [Hnot | (d & e & -> & He & Hnot)].
    + destruct v; try reflexivity. exfalso. by eapply Hnot.
    + simpl. rewrite He. simpl.
      destruct e; try reflexivity. exfalso. by eapply Hnot.
  - intros. by apply request_no_attempts.
Qed.

Lemma unauthorized_malformed_body_raises_witness :
  request_loop (always (json_response 401 [] (VDict [("error", VStr "Unauthorized")])))
    (py_range 1 4) "/files" "GET" None VNone None [] (new_client (Some "key") None 3 1)
  = (Raise AttributeError,
     after (new_client (Some "key") None 3 1)
       [Sent (build_request (self (new_client (Some "key") None 3 1))
                "/files" "GET" None VNone None [])]).
Proof.
  destruct unauthorized_malformed_body_raises as [Hbody _].
  rewrite (py_range_cons 1 4) by lia.
  apply (Hbody (always (json_response 401 [] (VDict [("error", VStr "Unauthorized")])))
               "/files" "GET" None VNone None [] 1 (py_range 2 4)
               (new_client (Some "key") None 3 1)
               (json_response 401 [] (VDict [("error", VStr "Unauthorized")]))
               (VDict [("error", VStr "Unauthorized")])); try reflexivity.
  right. exists [("error", VStr "Unauthorized")], (VStr "Unauthorized").
  split_and!; [reflexivity|reflexivity|discriminate].
Defined.

(** ** The [retry-after] header *)

(** C7. Reading [retry-after] on a 429 response: a missing header gives 60
    and a header that [int] accepts gives its value, but a header that [int]
    rejects makes [request] raise the [ValueError] of [int]; no handler
    catches it and no default replaces it, so the call ends there, after one
    request and without a sleep. *)
Theorem retry_after_unparsable_raises :
  forall (transport : list event -> Request -> outcome)
         endpoint method params json_data files kwargs
         (attempt : Z) (rest : list Z) (st : state) (r : Response),
    let q := build_request (self st) endpoint method params json_data files kwargs in
    transport (log st) q = Responded r ->
    resp_status r = 429 ->
    (header_get "retry-after" (resp_headers r) = None -> retry_after_of r = Some 60)
    /\ (forall s, header_get "retry-after" (resp_headers r) = Some s ->
          retry_after_of r = int_of_str s)
    /\ (forall s, header_get "retry-after" (resp_headers r) = Some s ->
          int_of_str s = None ->
          request_loop transport (attempt :: rest)
            endpoint method params json_data files kwargs st
          = (Raise ValueError, after st [Sent q])).
Proof.
  intros transport endpoint method params json_data files kwargs attempt rest st r q
    Ht H429.
  unfold retry_after_of. repeat split.
  - intros ->. reflexivity.
  - intros s ->. reflexivity.
  - intros s Hs Hbad. simpl. unfold bind at 1. run_monad. fold q.
    rewrite Ht, H429. simpl. unfold retry_after_of. rewrite Hs, Hbad. reflexivity.
Qed.

Lemma retry_after_unparsable_raises_witness :
  request_loop
    (always (json_response 429 [("Retry-After", "Wed, 21 Oct 2015 07:28:00 GMT")] (VDict [])))
    (py_range 1 4) "/files" "GET" None VNone None [] (new_client (Some "key") None 3 1)
  = (Raise ValueError,
     after (new_client (Some "key") None 3 1)
       [Sent (build_request (self (new_client (Some "key") None 3 1))
                "/files" "GET" None VNone None [])]).
Proof.
  pose proof (retry_after_unparsable_raises
                (always (json_response 429
                           [("Retry-After", "Wed, 21 Oct 2015 07:28:00 GMT")] (VDict [])))
                "/files" "GET" None VNone None [] 1 (py_range 2 4)
                (new_client (Some "key") None 3 1)
                (json_response 429
                   [("Retry-After", "Wed, 21 Oct 2015 07:28:00 GMT")] (VDict []))
                eq_refl eq_refl) as (_ & _ & Hraise).
  rewrite (py_range_cons 1 4) by lia.
  apply (Hraise "Wed, 21 Oct 2015 07:28:00 GMT"); reflexivity.
Defined.

(** ** What a call sends *)

Lemma request_attempt_sent transport attempt endpoint method params json_data files kwargs st :
  sent (log (snd (request_attempt transport attempt endpoint method params json_data
                    files kwargs st)))
  = sent (log st) ++ [build_request (self st) endpoint method params json_data files kwargs].
Proof.
  run_monad.
  repeat (case_match; unfold raise, ret in *; simplify_eq/=; try reflexivity);
    rewrite ?sent_app; simpl; rewrite ?app_nil_r; reflexivity.
Qed.

(** Every request of one call is the same request, built from the client
    object as it is when the call starts; the call leaves the object alone. *)
Lemma request_loop_sent transport attempts endpoint method params json_data files kwargs :
  forall st,
    let st' := snd (request_loop transport attempts endpoint method params json_data
                      files kwargs st) in
    self st' = self st
    /\ exists n,
         sent (log st')
         = sent (log st)
           ++ repeat (build_request (self st) endpoint method params json_data files kwargs) n.
Proof.
  induction attempts as [|a rest IH]; intros st; simpl.
  - split; [reflexivity|]. exists 0%nat. simpl. by rewrite app_nil_r.
  - unfold bind at 1 2.
    pose proof (request_attempt_self transport a endpoint method params json_data
                  files kwargs st) as Hself.
    pose proof (request_attempt_sent transport a endpoint method params json_data
                  files kwargs st) as Hsent.
    destruct (request_attempt transport a endpoint method params json_data files kwargs st)
      as [[[v|]|e|] st1]; simpl in *;
      try (split; [exact Hself|]; exists 1%nat; exact Hsent).
    destruct (IH st1) as (Hself' & n & Hn). simpl in *. split; [congruence|].
    exists (S n). rewrite Hn, Hsent, Hself. simpl. by rewrite <- app_assoc.
Qed.

Lemma request_sent transport endpoint method params json_data files kwargs st :
  let st' := snd (request transport endpoint method params json_data files kwargs st) in
  self st' = self st
  /\ exists n,
       sent (log st')
       = sent (log st)
         ++ repeat (build_request (self st) endpoint method params json_data files kwargs) n.
Proof.
  unfold request, bind, get_self. simpl. apply request_loop_sent.
Qed.


(** ** Login *)




(** A token that Python takes for false, such as the empty string, is stored
    all the same and the API key is dropped, but [_update_auth_headers] then
    installs neither header. *)
Example login_empty_token :
  let st2 := snd (login (always (json_response 200 [] (VDict [("token", VStr "")])))
                    (fun _ => "") "ann@example.org" "secret"
                    (new_client (Some "key") None 3 1)) in
  jwt_token (self st2) = VStr "" /\ api_key (self st2) = None
  /\ session_headers (self st2) !! "Authorization" = None
  /\ session_headers (self st2) !! "X-API-Key" = None.
Proof. vm_compute. repeat split. Qed.

(** ** Query parameters *)

Lemma clean_filters_spec (filters : pydict) (k : string) (v : value) :
  In (k, v) (clean_filters filters) <-> In (k, v) filters /\ v <> VNone.
Proof.
  unfold clean_filters. rewrite <- !list_elem_of_In, list_elem_of_filter. simpl.
  split; intros [H1 H2]; split; auto.
  - intros ->. discriminate.
  - destruct v; simpl; congruence.
Qed.

(** What the wrappers hand over.  [get_files] removes the entries whose value is
    [None] and no other: an entry whose value is the empty string stays and
    reaches the transport.  [request] passes the mapping it is given to the
    transport unchanged, so wrappers that do not clean their filters
    ([get_api_keys]) hand over [None] values as well. *)
Theorem get_files_drops_only_none :
  forall (transport : list event -> Request -> outcome) (filters : pydict) (st : state),
    let q := build_request (self st) "/files" "GET" (Some (clean_filters filters))
               VNone None [] in
    let q' := build_request (self st) "/api-keys" "GET" (Some filters) VNone None [] in
    (exists n, sent (log (snd (get_files transport filters st)))
               = sent (log st) ++ repeat q n)
    /\ req_params q = Some (clean_filters filters)
    /\ (forall k v, In (k, v) (clean_filters filters) <-> In (k, v) filters /\ v <> VNone)
    /\ (forall k, In (k, VStr "") filters -> In (k, VStr "") (clean_filters filters))
    /\ (exists n, sent (log (snd (get_api_keys transport filters st)))
                  = sent (log st) ++ repeat q' n)
    /\ req_params q' = Some filters.
Proof.
  intros transport filters st q q'.
  split; [|split; [reflexivity|split; [|split; [|split; [|reflexivity]]]]].
  - apply (request_sent transport "/files" "GET" (Some (clean_filters filters))
             VNone None [] st).
  - apply clean_filters_spec.
  - intros k Hk. apply clean_filters_spec. split; [assumption|discriminate].
  - apply (request_sent transport "/api-keys" "GET" (Some filters) VNone None [] st).
Qed.

Lemma get_files_drops_only_none_witness :
  In ("status", VStr "")
     (clean_filters [("status", VStr ""); ("file_type", VNone); ("limit", VInt 10)])
  /\ ~ In ("file_type", VNone)
       (clean_filters [("status", VStr ""); ("file_type", VNone); ("limit", VInt 10)]).
Proof.
  destruct (get_files_drops_only_none
              (always (json_response 200 [] (VDict [])))
              [("status", VStr ""); ("file_type", VNone); ("limit", VInt 10)]
              (new_client (Some "key") None 3 1)) as (_ & _ & Hiff & Hempty & _).
  split.
  - apply Hempty. simpl. auto.
  - intros Hin. apply Hiff in Hin as [_ Hne]. apply Hne. reflexivity.
Defined.

(** C8, counterexample to the claim as stated: [get_files(status="")] sends
    a request whose query mapping still holds the entry with the empty
    string, and so does the query string encoded from it. *)
Lemma empty_string_filter_is_sent :
  exists q,
    sent (log (snd (get_files (always (json_response 200 [] (VDict [])))
                      [("status", VStr "")] (new_client (Some "key") None 3 1))))
    = [q]
    /\ req_params q = Some [("status", VStr "")]
    /\ query_entries (req_params q) = [("status", VStr "")].
Proof. eexists. split_and!; reflexivity. Qed.

(** C8, as the code has it.  The mapping passed to [request] reaches the
    transport as it is, on every attempt.  In the query string encoded from
    it no entry stands for a [None] value: [get_files] has removed such
    entries before, and the encoding drops the ones that are left.  An entry
    whose value is the empty string is dropped by neither: it is encoded,
    as [key=]. *)
Theorem query_drops_none_keeps_empty :
  forall (transport : list event -> Request -> outcome)
         endpoint method (params : option pydict) json_data files kwargs (st : state),
    let q := build_request (self st) endpoint method params json_data files kwargs in
    (exists n, sent (log (snd (request transport endpoint method params json_data
                                 files kwargs st)))
               = sent (log st) ++ repeat q n)
    /\ req_params q = params
    /\ (forall k, ~ In (k, VNone) (query_entries (req_params q)))
    /\ (forall ps k, params = Some ps -> In (k, VStr "") ps ->
          In (k, VStr "") (query_entries (req_params q)))
    /\ (forall filters k,
          ~ In (k, VNone) (clean_filters filters)
          /\ (In (k, VStr "") filters ->
              In (k, VStr "") (query_entries (Some (clean_filters filters))))).
Proof.
  intros transport endpoint method params json_data files kwargs st q.
  assert (Hnone : forall ps k, ~ In (k, VNone) (query_entries ps)).
  { intros [ps|] k; [|intros []]. simpl. rewrite in_flat_map.
    intros ([k' v] & _ & Hin). simpl in Hin. apply in_map_iff in Hin as (x & Hx & Hin).
    injection Hx as _ ->. unfold query_values in Hin.
    rewrite <- list_elem_of_In, list_elem_of_filter in Hin. by destruct Hin. }
  assert (Hempty : forall ps k, In (k, VStr "") ps ->
                                In (k, VStr "") (query_entries (Some ps))).
  { intros ps k Hin. simpl. apply in_flat_map. exists (k, VStr ""). split; [exact Hin|].
    simpl. left. reflexivity. }
  split_and!.
  - apply (request_sent transport endpoint method params json_data files kwargs st).
  - reflexivity.
  - intros k. apply Hnone.
  - intros ps k -> Hin. by apply Hempty.
  - intros filters k. split.
    + intros Hin. apply clean_filters_spec in Hin as [_ Hne]. by apply Hne.
    + intros Hin. apply Hempty, clean_filters_spec. split; [exact Hin|discriminate].
Qed.

Lemma query_drops_none_keeps_empty_witness :
  query_entries (Some [("status", VStr ""); ("file_type", VNone); ("limit", VInt 10)])
  = [("status", VStr ""); ("limit", VInt 10)]
  /\ In ("status", VStr "")
        (query_entries (Some [("status", VStr ""); ("file_type", VNone);
                              ("limit", VInt 10)])).
Proof.
  split; [reflexivity|].
  destruct (query_drops_none_keeps_empty (always (json_response 200 [] (VDict [])))
              "/files" "GET"
              (Some [("status", VStr ""); ("file_type", VNone); ("limit", VInt 10)])
              VNone None [] (new_client (Some "key") None 3 1))
    as (_ & _ & _ & Hempty & _).
  apply (Hempty [("status", VStr ""); ("file_type", VNone); ("limit", VInt 10)] "status");
    [reflexivity | simpl; auto].
Defined.

(** ** Pagination *)

Lemma dict_lookup_set_eq k v d : dict_lookup k (dict_set k v d) = Some v.
Proof.
  induction d as [|[k' v'] d IH]; simpl.
  - by rewrite String.eqb_refl.
  - destruct (String.eqb_spec k k'); simpl.
    + by rewrite String.eqb_refl.
    + destruct (String.eqb_spec k k'); [contradiction|]. exact IH.
Qed.

Lemma dict_lookup_set_ne k k' v d :
  k <> k' -> dict_lookup k (dict_set k' v d) = dict_lookup k d.
Proof.
  intros Hne. induction d as [|[k0 v0] d IH]; simpl.
  - destruct (String.eqb_spec k k'); [contradiction|]. reflexivity.
  - destruct (String.eqb_spec k' k0) as [->|Hk0]; simpl.
    + destruct (String.eqb_spec k k0); [contradiction|]. reflexivity.
    + destruct (String.eqb_spec k k0); [reflexivity|]. exact IH.
Qed.

(** A 2xx response with a JSON body on the first attempt ends the call with
    that body, after one request. *)
Lemma request_ok transport endpoint method params json_data files kwargs
    (st : state) (r : Response) (v : value) :
  1 <= retry_attempts (self st) ->
  transport (log st) (build_request (self st) endpoint method params json_data files kwargs)
  = Responded r ->
  200 <= resp_status r < 300 ->
  resp_json r = Json v ->
  request transport endpoint method params json_data files kwargs st
  = (Ret v, after st [Sent (build_request (self st) endpoint method params json_data
                              files kwargs)]).
Proof.
  intros HN Ht Hst Hj. unfold request, bind at 1, get_self. simpl.
  rewrite py_range_cons by lia. simpl. unfold bind at 1. run_monad.
  rewrite Ht. simpl. unfold resp_ok.
  destruct (Z.eqb_spec (resp_status r) 429); [lia|].
  destruct (Z.leb_spec 500 (resp_status r)); [lia|]. simpl.
  destruct (Z.eqb_spec (resp_status r) 401); [lia|].
  destruct (Z.leb_spec 400 (resp_status r)); [lia|]. simpl.
  rewrite Hj. reflexivity.
Qed.

(** One turn of the loop on a page of the documented shape: the page's items
    are appended, and the loop stops exactly when [stops] holds. *)
Lemma paginate_loop_step transport (fuel : nat) endpoint options (lim : Z)
    (results : list value) (offset : Z) (st st1 : state)
    (response : value) (items : option (list value)) (total : Z) :
  request transport endpoint "GET" (Some (page_params options (VInt lim) offset))
    VNone None [] st = (Ret response, st1) ->
  documented_page response items total ->
  paginate_loop transport (S fuel) endpoint options (VInt lim) results offset st
  = if stops lim (offset + lim) items total
    then (Ret (results ++ page_items items), st1)
    else paginate_loop transport fuel endpoint options (VInt lim)
           (results ++ page_items items) (offset + lim) st1.
Proof.
  intros Hreq (d & p & -> & Hdata & Hpag & Htot).
  simpl. unfold bind at 1. fold (page_params options (VInt lim) offset).
  rewrite Hreq. unfold bind, lift, ret; simpl. rewrite Hdata.
  destruct items as [[|x l]|]; simpl.
  - by rewrite app_nil_r.
  - destruct (Z.ltb_spec (Z.of_nat (S (length l))) lim); simpl; [reflexivity|].
    rewrite Hpag. simpl. rewrite Htot. simpl.
    destruct (Z.leb_spec total (offset + lim)); reflexivity.
  - by rewrite app_nil_r.
Qed.

Lemma param_int_page c endpoint options (L o : Z) :
  param_int "offset" (page_request c endpoint options (VInt L) o) = o
  /\ param_int "limit" (page_request c endpoint options (VInt L) o) = L.
Proof.
  unfold param_int, page_request, page_params. simpl. split.
  - by rewrite dict_lookup_set_eq.
  - rewrite dict_lookup_set_ne by discriminate. by rewrite dict_lookup_set_eq.
Qed.

Lemma request_collection items endpoint options (L o : Z) (st : state) :
  1 <= retry_attempts (self st) ->
  request (collection_server items) endpoint "GET"
    (Some (page_params options (VInt L) o)) VNone None [] st
  = (Ret (collection_page items o L),
     after st [Sent (page_request (self st) endpoint options (VInt L) o)]).
Proof.
  intros HN.
  destruct (param_int_page (self st) endpoint options L o) as [Ho HL].
  apply (request_ok _ _ _ _ _ _ _ _
           (json_response 200 [] (collection_page items o L))); simpl; try lia; auto.
  unfold collection_server. fold (page_params options (VInt L) o).
  fold (page_request (self st) endpoint options (VInt L) o).
  by rewrite Ho, HL.
Qed.

Lemma collection_page_documented items (o L : Z) :
  documented_page (collection_page items o L) (Some (slice items o L))
    (Z.of_nat (length items)).
Proof. eexists _, _. repeat split. Qed.

Lemma stops_nonempty (lim no : Z) (l : list value) (total : Z) :
  l <> [] ->
  stops lim no (Some l) total = (Z.of_nat (length l) <? lim) || (total <=? no).
Proof. destruct l; [contradiction|reflexivity]. Qed.

Lemma slice_length items (o : nat) (L : Z) :
  length (slice items (Z.of_nat o) L) = Nat.min (Z.to_nat L) (length items - o).
Proof. unfold slice. by rewrite length_take, length_drop, Nat2Z.id. Qed.

Lemma page_fetches_cons c endpoint options (L o : Z) (n : nat) :
  page_fetches c endpoint options L o (S n)
  = Sent (page_request c endpoint options (VInt L) o)
    :: page_fetches c endpoint options L (o + L) n.
Proof.
  unfold page_fetches. rewrite <- cons_seq. simpl. f_equal.
  - do 2 f_equal. lia.
  - rewrite <- seq_shift, map_map. apply map_ext. intros i. do 2 f_equal. lia.
Qed.

(** The loop over a collection served honestly: from offset [o], with
    between [n] and [n + 1] pages of [L] items left, it makes [n + 1] fetches
    and returns everything that was left. *)
Lemma paginate_loop_collection items endpoint options (L : Z) :
  1 <= L ->
  forall (n fuel o : nat) (results : list value) (st : state),
    1 <= retry_attempts (self st) ->
    Z.of_nat n * L < Z.of_nat (length items) - Z.of_nat o <= (Z.of_nat n + 1) * L ->
    (n < fuel)%nat ->
    paginate_loop (collection_server items) fuel endpoint options (VInt L) results
      (Z.of_nat o) st
    = (Ret (results ++ skipn o items),
       after st (page_fetches (self st) endpoint options L (Z.of_nat o) (S n))).
Proof.
  intros HL. induction n as [|n IH]; intros fuel o results st HN Hrem Hfuel;
    (destruct fuel as [|fuel]; [lia|]);
    rewrite (paginate_loop_step _ _ _ _ _ _ _ _ _ _ _ _
               (request_collection items endpoint options L (Z.of_nat o) st HN)
               (collection_page_documented items (Z.of_nat o) L));
    pose proof (slice_length items o L) as Hlen;
    (rewrite stops_nonempty by (intros E; rewrite E in Hlen; simpl in Hlen; lia)).
  - (* last page *)
    destruct (Z.leb_spec (Z.of_nat (length items)) (Z.of_nat o + L)); [|lia].
    rewrite orb_true_r. simpl. unfold slice. rewrite Nat2Z.id.
    rewrite firstn_all2 by (rewrite length_drop; lia).
    rewrite page_fetches_cons. reflexivity.
  - (* a full page with more to come *)
    destruct (Z.ltb_spec (Z.of_nat (length (slice items (Z.of_nat o) L))) L); [lia|].
    destruct (Z.leb_spec (Z.of_nat (length items)) (Z.of_nat o + L)); [lia|].
    simpl.
    replace (Z.of_nat o + L) with (Z.of_nat (o + Z.to_nat L)) by lia.
    rewrite (IH fuel (o + Z.to_nat L)%nat) by (simpl; lia).
    f_equal.
    + f_equal. rewrite <- app_assoc. f_equal. unfold slice. rewrite Nat2Z.id.
      rewrite <- (firstn_skipn (Z.to_nat L) (skipn o items)) at 2.
      f_equal. rewrite skipn_skipn. f_equal. lia.
    + rewrite after_after. simpl. rewrite (page_fetches_cons _ _ _ _ _ (S n)).
      simpl. do 3 f_equal. lia.
Qed.

Lemma paginate_collection items endpoint options (L : Z) (n fuel : nat) (st : state) :
  fst (dict_pop "limit" (VInt 20) options) = VInt L ->
  1 <= L ->
  1 <= retry_attempts (self st) ->
  Z.of_nat n * L < Z.of_nat (length items) <= (Z.of_nat n + 1) * L ->
  (n < fuel)%nat ->
  paginate (collection_server items) fuel endpoint options st
  = (Ret items,
     after st (page_fetches (self st) endpoint (snd (dict_pop "limit" (VInt 20) options))
                 L 0 (S n))).
Proof.
  intros Hpop HL HN Hlen Hfuel. unfold paginate.
  destruct (dict_pop "limit" (VInt 20) options) as [limit options'] eqn:E.
  simpl in Hpop. subst limit. simpl.
  apply (paginate_loop_collection items endpoint options' L HL n fuel 0 [] st HN);
    [simpl; lia | exact Hfuel].
Qed.

(** C4. On pages of the documented shape, one turn of [paginate]'s loop
    appends the page's [data] to the results, in order, and stops exactly when
    the page has no data or empty data, or fewer items than [limit], or
    [pagination.total] is at most the new offset; otherwise it fetches the
    next page at the new offset.  Over a collection served page by page with
    its size as total, [paginate] returns the whole collection after
    [n + 1] fetches at offsets 0, L, ..., n * L, where [n * L < size <=
    (n + 1) * L]; over 45 items with [limit = 20] these are 3 fetches of 20,
    20 and 5 items. *)
Theorem paginate_accumulates_until_stop :
  (forall (transport : list event -> Request -> outcome) (fuel : nat)
          endpoint options (lim : Z) (results : list value) (offset : Z)
          (st st1 : state) (response : value) (items : option (list value)) (total : Z),
      request transport endpoint "GET" (Some (page_params options (VInt lim) offset))
        VNone None [] st = (Ret response, st1) ->
      documented_page response items total ->
      paginate_loop transport (S fuel) endpoint options (VInt lim) results offset st
      = if stops lim (offset + lim) items total
        then (Ret (results ++ page_items items), st1)
        else paginate_loop transport fuel endpoint options (VInt lim)
               (results ++ page_items items) (offset + lim) st1)
  /\ (forall items endpoint options (L : Z) (n fuel : nat) (st : state),
        fst (dict_pop "limit" (VInt 20) options) = VInt L ->
        1 <= L ->
        1 <= retry_attempts (self st) ->
        Z.of_nat n * L < Z.of_nat (length items) <= (Z.of_nat n + 1) * L ->
        (n < fuel)%nat ->
        paginate (collection_server items) fuel endpoint options st
        = (Ret items,
           after st (page_fetches (self st) endpoint
                       (snd (dict_pop "limit" (VInt 20) options)) L 0 (S n))))
  /\ (forall items endpoint (fuel : nat) (st : state),
        length items = 45%nat ->
        1 <= retry_attempts (self st) ->
        (3 <= fuel)%nat ->
        paginate (collection_server items) fuel endpoint [("limit", VInt 20)] st
        = (Ret items, after st (page_fetches (self st) endpoint [] 20 0 3))
        /\ map (fun o => length (slice items o 20)) [0; 20; 40] = [20; 20; 5]%nat).
Proof.
  split; [|split].
  - intros. eapply paginate_loop_step; eassumption.
  - intros. apply paginate_collection; assumption.
  - intros items endpoint fuel st Hlen HN Hfuel. split.
    + apply (paginate_collection items endpoint [("limit", VInt 20)] 20 2 fuel st);
        try reflexivity; try lia.
    + simpl. unfold slice. rewrite !length_take, !length_drop, Hlen. reflexivity.
Qed.

Lemma paginate_accumulates_until_stop_witness :
  paginate (collection_server (map (fun i => VInt (Z.of_nat i)) (seq 0 45))) 3 "/files"
    [("limit", VInt 20)] (new_client (Some "key") None 3 1)
  = (Ret (map (fun i => VInt (Z.of_nat i)) (seq 0 45)),
     after (new_client (Some "key") None 3 1)
       (page_fetches (self (new_client (Some "key") None 3 1)) "/files" [] 20 0 3)).
Proof.
  destruct paginate_accumulates_until_stop as (_ & _ & H45).
  apply (H45 (map (fun i => VInt (Z.of_nat i)) (seq 0 45)) "/files" 3%nat
             (new_client (Some "key") None 3 1)).
  - reflexivity.
  - simpl. lia.
  - lia.
Defined.

(** C10. A page with a non-empty [data] array and no [pagination.total]
    (no [pagination] object, or one without [total]) ends the loop: the total
    counts as 0, which is at most the new offset when the limit and the
    offset are not negative.  The page's items are appended and no further
    page is fetched, however many items the page holds. *)
Theorem paginate_missing_total_stops :
  forall (transport : list event -> Request -> outcome) (fuel : nat)
         endpoint options (limit : value) (lim : Z) (results : list value) (offset : Z)
         (st st1 : state) (d : pydict) (items : list value),
    request transport endpoint "GET" (Some (page_params options limit offset))
      VNone None [] st = (Ret (VDict d), st1) ->
    dict_lookup "data" d = Some (VList items) ->
    items <> [] ->
    (dict_lookup "pagination" d = None
     \/ exists p, dict_lookup "pagination" d = Some (VDict p)
                  /\ dict_lookup "total" p = None) ->
    as_int limit = Some lim ->
    0 <= lim ->
    0 <= offset ->
    paginate_loop transport (S fuel) endpoint options limit results offset st
    = (Ret (results ++ items), st1).
Proof.
  intros transport fuel endpoint options limit lim results offset st st1 d items
    Hreq Hdata Hne Hpag Hlim Hl Ho.
  simpl. unfold bind at 1. fold (page_params options limit offset).
  rewrite Hreq. unfold bind, lift, ret; simpl. rewrite Hdata. simpl.
  destruct items as [|x l]; [contradiction|]. rewrite Hlim.
  destruct (Z.ltb_spec (Z.of_nat (length (x :: l))) lim); [reflexivity|].
  destruct Hpag as [Hnone|(p & Hp & Hnone)].
  - rewrite Hnone. simpl.
    destruct (Z.leb_spec 0 (offset + lim)); [reflexivity|lia].
  - rewrite Hp. simpl. rewrite Hnone. simpl.
    destruct (Z.leb_spec 0 (offset + lim)); [reflexivity|lia].
Qed.

Lemma paginate_missing_total_stops_witness :
  paginate (always (json_response 200 [] (VDict [("data", VList [VInt 1; VInt 2])])))
    5 "/files" [("limit", VInt 2)] (new_client (Some "key") None 3 1)
  = (Ret [VInt 1; VInt 2],
     after (new_client (Some "key") None 3 1)
       [Sent (page_request (self (new_client (Some "key") None 3 1)) "/files" []
                (VInt 2) 0)]).
Proof.
  apply (paginate_missing_total_stops
           (always (json_response 200 [] (VDict [("data", VList [VInt 1; VInt 2])])))
           4 "/files" [] (VInt 2) 2 [] 0 (new_client (Some "key") None 3 1) _
           [("data", VList [VInt 1; VInt 2])] [VInt 1; VInt 2]).
  - reflexivity.
  - reflexivity.
  - discriminate.
  - left. reflexivity.
  - reflexivity.
  - lia.
  - lia.
Defined.

(** With a negative limit the new offset is negative, the default total 0 is
    above it, and the loop goes on: on a server that keeps answering with the
    same page it never ends (here: it uses up its five turns). *)
Example paginate_negative_limit :
  let run := paginate (always (json_response 200 [] (VDict [("data", VList [VInt 1])])))
               5 "/files" [("limit", VInt (-1))] (new_client (Some "key") None 3 1) in
  fst run = OutOfFuel /\ length (sent (log (snd run))) = 5%nat.
Proof. vm_compute. split; reflexivity. Qed.

(** ** Webhook signatures *)

Lemma code_ascii_of (m : Z) : 0 <= m < 256 -> code (ascii_of_N (Z.to_N m)) = m.
Proof.
  intros Hm. unfold code. rewrite N_ascii_embedding by lia. lia.
Qed.

Lemma hex_digit_ascii (n : Z) : 0 <= n < 16 -> (code (hex_digit n) <? 128) = true.
Proof.
  intros Hn. unfold hex_digit. apply Z.ltb_lt.
  destruct (Z.ltb_spec n 10); rewrite code_ascii_of; lia.
Qed.

Lemma hex_is_ascii (bs : list Z) : is_ascii_str (hex bs) = true.
Proof.
  unfold is_ascii_str. induction bs as [|b bs IH]; simpl; [reflexivity|].
  rewrite !hex_digit_ascii; [exact IH| |].
  - apply Z.mod_pos_bound. lia.
  - pose proof (Z.mod_pos_bound b 256 ltac:(lia)).
    split; [apply Z.div_pos; lia | apply Z.div_lt_upper_bound; lia].
Qed.

Lemma expected_signature_ascii payload secret :
  is_ascii_str (expected_signature payload secret) = true.
Proof. apply hex_is_ascii. Qed.

(** What the check computes, case by case. *)
Lemma validate_webhook_signature_cases payload signature secret :
  validate_webhook_signature payload signature secret
  = if is_ascii_str signature
    then inr (String.eqb signature (expected_signature payload secret))
    else inl TypeError.
Proof.
  unfold validate_webhook_signature, compare_digest.
  rewrite expected_signature_ascii, andb_true_r. reflexivity.
Qed.

(** What the check answers.  It returns [True] if and only if the
    signature is the hexadecimal HMAC-SHA256 digest of the payload under the
    UTF-8 bytes of the secret, so the right signature is accepted.  Any other
    signature is turned down: with [False] when it is ASCII, with the
    [TypeError] of [compare_digest] when it holds a character outside ASCII.
    When the payload or the secret is changed, the old signature is accepted
    exactly when the two digests are the same string. *)
Theorem validate_webhook_signature_spec :
  forall (payload : list byte) (signature secret : string),
    (validate_webhook_signature payload signature secret = inr true
     <-> signature = expected_signature payload secret)
    /\ validate_webhook_signature payload (expected_signature payload secret) secret
       = inr true
    /\ (signature <> expected_signature payload secret ->
        validate_webhook_signature payload signature secret
        = if is_ascii_str signature then inr false else inl TypeError)
    /\ (forall payload' secret',
          validate_webhook_signature payload' (expected_signature payload secret) secret'
          = inr (String.eqb (expected_signature payload secret)
                            (expected_signature payload' secret'))).
Proof.
  intros payload signature secret. rewrite !validate_webhook_signature_cases.
  split; [|split; [|split]].
  - destruct (is_ascii_str signature) eqn:Ha.
    + split.
      * intros H. injection H as H. by apply String.eqb_eq.
      * intros ->. by rewrite String.eqb_refl.
    + split; [discriminate|].
      intros ->. by rewrite expected_signature_ascii in Ha.
  - by rewrite expected_signature_ascii, String.eqb_refl.
  - intros Hne. destruct (is_ascii_str signature); [|reflexivity].
    destruct (String.eqb_spec signature (expected_signature payload secret));
      [contradiction|reflexivity].
  - intros payload' secret'. rewrite validate_webhook_signature_cases.
    by rewrite expected_signature_ascii.
Qed.

Lemma validate_webhook_signature_spec_witness :
  validate_webhook_signature
    (list_byte_of_string "what do ya want for nothing?")
    "5bdcc146bf60754e6a042426089575c75a003f089d2739839dec58b964ec3843" "Jefe"
  = inr true
  /\ validate_webhook_signature
       (list_byte_of_string "what do ya want for nothing?")
       "5bdcc146bf60754e6a042426089575c75a003f089d2739839dec58b964ec3842" "Jefe"
     = inr false.
Proof.
  split.
  - destruct (validate_webhook_signature_spec
                (list_byte_of_string "what do ya want for nothing?")
                "5bdcc146bf60754e6a042426089575c75a003f089d2739839dec58b964ec3843" "Jefe")
      as (Hiff & _).
    apply Hiff. vm_compute. reflexivity.
  - destruct (validate_webhook_signature_spec
                (list_byte_of_string "what do ya want for nothing?")
                "5bdcc146bf60754e6a042426089575c75a003f089d2739839dec58b964ec3842" "Jefe")
      as (_ & _ & Hbad & _).
    rewrite Hbad; [reflexivity|]. vm_compute. discriminate.
Defined.

(** An instance.  The right signature for the
    payload is accepted; the same signature with the high bit of its first
    byte flipped (['5'], 0x35, becomes 0xB5) is not answered with [False]:
    [compare_digest] raises [TypeError] on it. *)
Lemma flipped_signature_byte_raises :
  validate_webhook_signature
    (list_byte_of_string "what do ya want for nothing?")
    "5bdcc146bf60754e6a042426089575c75a003f089d2739839dec58b964ec3843" "Jefe"
  = inr true
  /\ validate_webhook_signature
       (list_byte_of_string "what do ya want for nothing?")
       (String (ascii_of_N 0xB5)
          "bdcc146bf60754e6a042426089575c75a003f089d2739839dec58b964ec3843") "Jefe"
     = inl TypeError
  /\ validate_webhook_signature
       (list_byte_of_string "what do ya want for nothing?")
       (String (ascii_of_N 0xB5)
          "bdcc146bf60754e6a042426089575c75a003f089d2739839dec58b964ec3843") "Jefe"
     <> inr false.
Proof. vm_compute. repeat split; discriminate. Qed.

(** Changing a byte of the payload or of the secret, on the same example:
    the old signature is turned down. *)
Example changed_payload_or_secret_rejected :
  validate_webhook_signature
    (list_byte_of_string "what do ya want for nothinG?")
    "5bdcc146bf60754e6a042426089575c75a003f089d2739839dec58b964ec3843" "Jefe"
  = inr false
  /\ validate_webhook_signature
       (list_byte_of_string "what do ya want for nothing?")
       "5bdcc146bf60754e6a042426089575c75a003f089d2739839dec58b964ec3843" "JefE"
     = inr false.
Proof. vm_compute. split; reflexivity. Qed.

(** C3. A signature that holds a character outside ASCII is never the
    hexadecimal digest, for any payload and secret, so the check ought to
    answer [False]; it does not return at all: [compare_digest] raises
    [TypeError]. *)
Theorem non_ascii_signature_raises :
  forall (payload : list byte) (signature secret : string),
    is_ascii_str signature = false ->
    signature <> expected_signature payload secret
    /\ validate_webhook_signature payload signature secret = inl TypeError
    /\ validate_webhook_signature payload signature secret <> inr false.
Proof.
  intros payload signature secret Hna. split_and!.
  - intros ->. by rewrite expected_signature_ascii in Hna.
  - by rewrite validate_webhook_signature_cases, Hna.
  - rewrite validate_webhook_signature_cases, Hna. discriminate.
Qed.

Lemma non_ascii_signature_raises_witness :
  validate_webhook_signature
    (list_byte_of_string "what do ya want for nothing?")
    (String (ascii_of_N 0xB5)
       "bdcc146bf60754e6a042426089575c75a003f089d2739839dec58b964ec3843") "Jefe"
  = inl TypeError.
Proof.
  apply (non_ascii_signature_raises
           (list_byte_of_string "what do ya want for nothing?")
           (String (ascii_of_N 0xB5)
              "bdcc146bf60754e6a042426089575c75a003f089d2739839dec58b964ec3843") "Jefe").
  reflexivity.
Defined.

(* ================================================================== *)
(** * Further properties of the client *)

(** ** Construction *)

Lemma append_nil_l (s : string) : "" +:+ s = s.
Proof. reflexivity. Qed.

Lemma append_cons (c : ascii) (s t : string) : String c s +:+ t = String c (s +:+ t).
Proof. reflexivity. Qed.

Lemma rstrip_slash_no_trailing (s t : string) : rstrip_slash s <> t +:+ "/".
Proof.
  revert t. induction s as [|c s IH]; intros t; simpl.
  - destruct t; discriminate.
  - destruct (rstrip_slash s) as [|a r] eqn:E.
    + destruct (Ascii.eqb_spec c "/") as [->|Hc].
      * destruct t; discriminate.
      * destruct t as [|b t]; rewrite ?append_nil_l, ?append_cons.
        -- intros H. injection H as H. contradiction.
        -- destruct t; discriminate.
    + destruct t as [|b t]; rewrite ?append_nil_l, ?append_cons; [discriminate|].
      intros H. injection H as _ H. exact (IH t H).
Qed.

Lemma rstrip_slash_decomp (s : string) :
  exists n, s = rstrip_slash s +:+ string_of_list_ascii (repeat "/"%char n).
Proof.
  induction s as [|c s [n IH]]; simpl.
  - exists 0%nat. reflexivity.
  - destruct (rstrip_slash s) as [|a r] eqn:E; rewrite ?append_nil_l, ?append_cons in IH.
    + destruct (Ascii.eqb_spec c "/") as [->|Hc].
      * exists (S n). simpl. rewrite append_nil_l. by rewrite <- IH.
      * exists n. rewrite append_cons, append_nil_l. by rewrite <- IH.
    + exists n. rewrite !append_cons. by rewrite <- IH.
Qed.

Lemma opt_truthy_true (o : option string) :
  opt_truthy o = true <-> exists s, o = Some s /\ s <> "".
Proof.
  destruct o as [s|]; simpl.
  - destruct (String.eqb_spec s ""); simpl; split.
    + discriminate.
    + intros (s' & [= <-] & Hne). contradiction.
    + eauto.
    + reflexivity.
  - split; [discriminate|]. intros (s & H & _). discriminate.
Qed.

(** X1. The constructor refuses a client without credentials (both absent
    or empty) with [ValueError].  Otherwise the new client has sent nothing,
    keeps the retry policy it was given, stores the base URL without its
    trailing slashes, and its session carries the three fixed headers and
    exactly one credential header: [Authorization: Bearer <token>] when a
    token was given, even next to an API key, and [X-API-Key] otherwise. *)
Theorem init_installs_one_credential :
  forall (py_str : value -> string) (key token : option string) (url : string)
         (attempts : Z) (delay : Q) (tmo : Z),
    (opt_truthy key = false -> opt_truthy token = false ->
     init py_str key token url attempts delay tmo = inl ValueError)
    /\ (opt_truthy key = true \/ opt_truthy token = true ->
        exists st,
          init py_str key token url attempts delay tmo = inr st
          /\ log st = []
          /\ retry_attempts (self st) = attempts
          /\ retry_delay (self st) = delay
          /\ timeout (self st) = tmo
          /\ (forall t, base_url (self st) <> t +:+ "/")
          /\ (exists n, url = base_url (self st)
                              +:+ string_of_list_ascii (repeat "/"%char n))
          /\ session_headers (self st) !! "User-Agent"
             = Some "QA-Platform-Python-SDK/1.1.0"
          /\ session_headers (self st) !! "Accept" = Some "application/json"
          /\ session_headers (self st) !! "Content-Type" = Some "application/json"
          /\ (forall tok, token = Some tok -> tok <> "" ->
                session_headers (self st) !! "Authorization" = Some ("Bearer " +:+ tok)
                /\ session_headers (self st) !! "X-API-Key" = None)
          /\ (opt_truthy token = false -> forall k, key = Some k ->
                session_headers (self st) !! "Authorization" = None
                /\ session_headers (self st) !! "X-API-Key" = Some k)).
Proof.
  intros py_str key token url attempts delay tmo. split.
  - intros Hk Ht. unfold init. rewrite Hk, Ht. reflexivity.
  - intros Hcred. unfold init.
    assert (negb (opt_truthy key) && negb (opt_truthy token) = false) as ->.
    { destruct Hcred as [-> | ->]; simpl; [reflexivity | apply andb_false_r]. }
    eexists. split; [reflexivity|]. simpl.
    repeat (split; [reflexivity|]).
    split; [intros t; apply rstrip_slash_no_trailing|].
    split; [apply rstrip_slash_decomp|].
    unfold auth_headers; simpl.
    destruct token as [tok|]; simpl.
    + destruct (String.eqb_spec tok "") as [->|Hne]; simpl.
      * (* an empty token counts as absent *)
        destruct Hcred as [Hk|Hk]; [|discriminate].
        apply opt_truthy_true in Hk as (k & -> & Hkne). simpl.
        destruct (String.eqb_spec k ""); [contradiction|]. simpl.
        split_and!; try reflexivity.
        -- intros tok' [= <-] Hbad. contradiction.
        -- intros _ k' [= <-]. split; reflexivity.
      * split_and!; try reflexivity.
        -- intros tok' [= <-] _. split; reflexivity.
        -- discriminate.
    + destruct Hcred as [Hk|Hk]; [|discriminate].
      apply opt_truthy_true in Hk as (k & -> & Hkne). simpl.
      destruct (String.eqb_spec k ""); [contradiction|]. simpl.
      split_and!; try reflexivity.
      * discriminate.
      * intros _ k' [= <-]. split; reflexivity.
Qed.

Lemma init_installs_one_credential_witness :
  exists st,
    init (fun _ => "") (Some "key") (Some "jwt") "https://api.example.org/v1//" 3 1 30
    = inr st
    /\ base_url (self st) = "https://api.example.org/v1"
    /\ session_headers (self st) !! "Authorization" = Some "Bearer jwt"
    /\ session_headers (self st) !! "X-API-Key" = None.
Proof.
  destruct (init_installs_one_credential (fun _ => "") (Some "key") (Some "jwt")
              "https://api.example.org/v1//" 3 1 30) as [_ Hok].
  destruct Hok as (st & Hinit & _ & _ & _ & _ & _ & _ & _ & _ & _ & Htok & _).
  - left. reflexivity.
  - exists st. split; [exact Hinit|].
    destruct (Htok "jwt" eq_refl ltac:(discriminate)) as [Ha Hx].
    split; [|split; assumption].
    vm_compute in Hinit. injection Hinit as <-. reflexivity.
Defined.

(** ** The retry loop: what it never does, and its bounds *)

(** X2. [request] never raises [RateLimitError], whatever the server does and
    whatever the retry policy: inside the loop the attempt number never
    exceeds [retry_attempts], so the branch that raises it is not taken. *)
Theorem request_never_raises_rate_limit :
  forall (transport : list event -> Request -> outcome)
         endpoint method params json_data files kwargs (st : state)
         (message : string) (retry_after : Z),
    fst (request transport endpoint method params json_data files kwargs st)
    <> Raise (RateLimitError message retry_after).
Proof. intros. apply request_never_rate_limit_error. Qed.

(** X3. With [retry_attempts <= 0] the client cannot talk to the server at
    all: [request], and with it [login], [logout] and [paginate], raise
    "Max retries exceeded" without sending anything and without touching the
    client. *)
Theorem no_retry_budget_sends_nothing :
  forall (transport : list event -> Request -> outcome) (py_str : value -> string)
         (st : state),
    retry_attempts (self st) <= 0 ->
    (forall endpoint method params json_data files kwargs,
        request transport endpoint method params json_data files kwargs st
        = (Raise max_retries_exceeded, st))
    /\ (forall email password,
          login transport py_str email password st = (Raise max_retries_exceeded, st))
    /\ logout transport py_str st = (Raise max_retries_exceeded, st)
    /\ (forall fuel endpoint options,
          paginate transport (S fuel) endpoint options st
          = (Raise max_retries_exceeded, st)).
Proof.
  intros transport py_str st HN. split_and!.
  - intros. by apply request_no_attempts.
  - intros. unfold login, bind at 1. by rewrite request_no_attempts.
  - unfold logout, bind at 1. by rewrite request_no_attempts.
  - intros. unfold paginate. destruct (dict_pop "limit" (VInt 20) options) as [l o].
    simpl. unfold bind at 1. by rewrite request_no_attempts.
Qed.

Lemma no_retry_budget_sends_nothing_witness :
  request (always (json_response 200 [] (VDict []))) "/health" "GET" None VNone None []
    (new_client (Some "key") None 0 1)
  = (Raise max_retries_exceeded, new_client (Some "key") None 0 1).
Proof.
  apply (no_retry_budget_sends_nothing (always (json_response 200 [] (VDict [])))
           (fun _ => "") (new_client (Some "key") None 0 1)).
  simpl. lia.
Defined.

Lemma request_attempt_log transport attempt endpoint method params json_data files kwargs st :
  let q := build_request (self st) endpoint method params json_data files kwargs in
  let run := request_attempt transport attempt endpoint method params json_data
               files kwargs st in
  log (snd run) = log st ++ [Sent q]
  \/ exists d, fst run = Ret None /\ log (snd run) = log st ++ [Sent q; Slept d].
Proof.
  run_monad.
  repeat (case_match; unfold raise, ret in *; simplify_eq/=; auto);
    right; eexists; (split; [reflexivity|]); by rewrite <- app_assoc.
Qed.

Lemma request_loop_bounded transport attempts endpoint method params json_data files kwargs :
  forall st,
    let q := build_request (self st) endpoint method params json_data files kwargs in
    let st' := snd (request_loop transport attempts endpoint method params json_data
                      files kwargs st) in
    exists n m,
      (m <= n <= length attempts)%nat
      /\ sent (log st') = sent (log st) ++ repeat q n
      /\ length (sleeps (log st')) = (length (sleeps (log st)) + m)%nat.
Proof.
  induction attempts as [|a rest IH]; intros st; simpl.
  - exists 0%nat, 0%nat. simpl. rewrite app_nil_r. split_and!; lia || reflexivity.
  - unfold bind.
    pose proof (request_attempt_self transport a endpoint method params json_data
                  files kwargs st) as Hself.
    pose proof (request_attempt_log transport a endpoint method params json_data
                  files kwargs st) as Hlog.
    destruct (request_attempt transport a endpoint method params json_data files kwargs st)
      as [r st1]; simpl in *.
    destruct Hlog as [Hlog|(d & -> & Hlog)].
    + (* the attempt ended the call, or continued without a sleep *)
      destruct r as [[v|]|e|]; simpl.
      1,3,4: exists 1%nat, 0%nat; unfold ret; simpl;
        rewrite Hlog, sent_app, sleeps_app; simpl;
        rewrite app_nil_r; split_and!; lia || reflexivity.
      destruct (IH st1) as (n & m & Hnm & Hs & Hz). simpl in *.
      exists (S n), m. rewrite Hs, Hz, Hself, Hlog, sent_app, sleeps_app. simpl.
      rewrite <- app_assoc, app_nil_r. split_and!; lia || reflexivity.
    + destruct (IH st1) as (n & m & Hnm & Hs & Hz). simpl in *.
      exists (S n), (S m). rewrite Hs, Hz, Hself, Hlog, sent_app, sleeps_app. simpl.
      rewrite <- app_assoc, length_app. simpl. split_and!; lia || reflexivity.
Qed.

Lemma request_bounded transport endpoint method params json_data files kwargs (st : state) :
  let q := build_request (self st) endpoint method params json_data files kwargs in
  let st' := snd (request transport endpoint method params json_data files kwargs st) in
  self st' = self st
  /\ exists n m,
       (m <= n <= Z.to_nat (retry_attempts (self st)))%nat
       /\ sent (log st') = sent (log st) ++ repeat q n
       /\ length (sleeps (log st')) = (length (sleeps (log st)) + m)%nat.
Proof.
  intros q st'. split; [apply request_sent|].
  subst q st'. unfold request, bind, get_self. simpl.
  destruct (request_loop_bounded transport (py_range 1 (retry_attempts (self st) + 1))
              endpoint method params json_data files kwargs st) as (n & m & Hnm & Hs & Hz).
  rewrite py_range_length in Hnm. exists n, m. split_and!; try assumption; lia.
Qed.

(** X4. One call of [request] that uploads no file sends at most
    [retry_attempts] requests, all of them the same request (same method,
    URL, query, JSON body, headers and keyword values), none of which carries
    files or headers of its own; it sleeps at most once per request, and
    leaves the client object as it was.  (With files, every attempt is handed
    the same open streams, which the first one reads to their end: the
    requests of an upload are not the same on the wire, and are left out
    here.) *)
Theorem request_sends_at_most :
  forall (transport : list event -> Request -> outcome)
         endpoint method params json_data files kwargs (st : state),
    files_truthy files = false ->
    let q := build_request (self st) endpoint method params json_data files kwargs in
    let st' := snd (request transport endpoint method params json_data files kwargs st) in
    self st' = self st
    /\ req_files q = None
    /\ req_headers q = None
    /\ exists n m,
         (m <= n <= Z.to_nat (retry_attempts (self st)))%nat
         /\ sent (log st') = sent (log st) ++ repeat q n
         /\ length (sleeps (log st')) = (length (sleeps (log st)) + m)%nat.
Proof.
  intros transport endpoint method params json_data files kwargs st Hfiles q st'.
  destruct (request_bounded transport endpoint method params json_data files kwargs st)
    as [Hself Hlog].
  subst q. unfold build_request. simpl. rewrite Hfiles.
  split_and!; [exact Hself|reflexivity|reflexivity|].
  unfold build_request in Hlog. rewrite Hfiles in Hlog. exact Hlog.
Qed.

Lemma request_sends_at_most_witness :
  let st := new_client (Some "key") None 3 1 in
  let q := build_request (self st) "/health" "GET" None VNone None [] in
  let st' := snd (request (always (json_response 503 [] (VDict []))) "/health" "GET"
                    None VNone None [] st) in
  self st' = self st
  /\ exists n m,
       (m <= n <= Z.to_nat (retry_attempts (self st)))%nat
       /\ sent (log st') = sent (log st) ++ repeat q n
       /\ length (sleeps (log st')) = (length (sleeps (log st)) + m)%nat.
Proof.
  intros st q st'.
  destruct (request_sends_at_most (always (json_response 503 [] (VDict []))) "/health"
              "GET" None VNone None [] st eq_refl)
    as (Hself & _ & _ & Hlog).
  split; [exact Hself|exact Hlog].
Defined.

(** ** Errors that end a call at once *)

Lemma attempt_client_error transport attempt endpoint method params json_data files
    kwargs (st : state) (r : Response) :
  transport (log st) (build_request (self st) endpoint method params json_data files kwargs)
  = Responded r ->
  400 <= resp_status r < 500 -> resp_status r <> 401 -> resp_status r <> 429 ->
  request_attempt transport attempt endpoint method params json_data files kwargs st
  = (Raise (error_of_response r),
     after st [Sent (build_request (self st) endpoint method params json_data files kwargs)]).
Proof.
  intros Ht Hst H401 H429. run_monad. rewrite Ht. simpl. unfold resp_ok.
  destruct (Z.eqb_spec (resp_status r) 429); [contradiction|].
  destruct (Z.leb_spec 500 (resp_status r)); [lia|]. simpl.
  destruct (Z.eqb_spec (resp_status r) 401); [contradiction|].
  destruct (Z.leb_spec 400 (resp_status r)); [|lia].
  destruct (Z.ltb_spec (resp_status r) 600); [|lia]. reflexivity.
Qed.

(** X5. A 4xx response other than 401 and 429 is never retried: at whatever
    attempt it arrives, the call ends there with an exception, and only the
    request itself has been logged.  With a JSON object whose [error] is an
    object or is missing, the exception is a [QAPlatformError] with the
    response's status code that holds [error.message] (default "Unknown
    error"), [error.code] (default [None]) and [error.details] (an empty
    list when missing or empty); with a body that is not JSON it is a
    [QAPlatformError] with the raw text, or "Unknown error" when the text is
    empty.  With a JSON body that is not an object, or whose [error] is not
    an object, it is the [AttributeError] of [.get], which the handler for
    [ValueError] does not catch. *)
Theorem client_error_never_retried :
  forall (transport : list event -> Request -> outcome)
         endpoint method params json_data files kwargs
         (attempt : Z) (rest : list Z) (st : state) (r : Response),
    let q := build_request (self st) endpoint method params json_data files kwargs in
    let run := request_loop transport (attempt :: rest)
                 endpoint method params json_data files kwargs st in
    transport (log st) q = Responded r ->
    400 <= resp_status r < 500 -> resp_status r <> 401 -> resp_status r <> 429 ->
    (exists e, run = (Raise e, after st [Sent q]))
    /\ (forall d info, resp_json r = Json (VDict d) ->
          dict_lookup "error" d = Some (VDict info) ->
          let details := default (VList []) (dict_lookup "details" info) in
          run = (Raise (QAPlatformError
                          (default (VStr "Unknown error") (dict_lookup "message" info))
                          (Some (resp_status r))
                          (default VNone (dict_lookup "code" info))
                          (if truthy details then details else VList [])),
                 after st [Sent q]))
    /\ (forall d, resp_json r = Json (VDict d) ->
          dict_lookup "error" d = None ->
          run = (Raise (QAPlatformError (VStr "Unknown error") (Some (resp_status r))
                          VNone (VList [])),
                 after st [Sent q]))
    /\ (forall err, resp_json r = NotJson err ->
          run = (Raise (QAPlatformError
                          (VStr (if String.eqb (resp_text r) "" then "Unknown error"
                                 else resp_text r))
                          (Some (resp_status r)) VNone (VList [])),
                 after st [Sent q]))
    /\ (forall v, resp_json r = Json v -> (forall d, v <> VDict d) ->
          run = (Raise AttributeError, after st [Sent q]))
    /\ (forall d e, resp_json r = Json (VDict d) ->
          dict_lookup "error" d = Some e -> (forall info, e <> VDict info) ->
          run = (Raise AttributeError, after st [Sent q])).
Proof.
  intros transport endpoint method params json_data files kwargs attempt rest st r
    q run Ht Hst H401 H429.
  assert (Hrun : run = (Raise (error_of_response r), after st [Sent q])).
  { subst run. simpl. unfold bind at 1.
    by rewrite (attempt_client_error _ _ _ _ _ _ _ _ _ r Ht Hst H401 H429). }
  rewrite Hrun. split_and!.
  - eexists. reflexivity.
  - intros d info Hj He. unfold error_of_response. rewrite Hj. simpl. rewrite He.
    reflexivity.
  - intros d Hj He. unfold error_of_response. rewrite Hj. simpl. rewrite He.
    reflexivity.
  - intros err Hj. unfold error_of_response. rewrite Hj. simpl.
    destruct (String.eqb (resp_text r) ""); reflexivity.
  - intros v Hj Hnot. unfold error_of_response. rewrite Hj.
    destruct v; try reflexivity. exfalso. by eapply Hnot.
  - intros d e Hj He Hnot. unfold error_of_response. rewrite Hj. simpl. rewrite He.
    simpl. destruct e; try reflexivity. exfalso. by eapply Hnot.
Qed.

Lemma client_error_never_retried_witness :
  request_loop
    (always (json_response 404 []
               (VDict [("error", VDict [("message", VStr "No such file");
                                        ("code", VStr "not_found")])])))
    (py_range 1 4) "/files/42" "GET" None VNone None [] (new_client (Some "key") None 3 1)
  = (Raise (QAPlatformError (VStr "No such file") (Some 404) (VStr "not_found") (VList [])),
     after (new_client (Some "key") None 3 1)
       [Sent (build_request (self (new_client (Some "key") None 3 1))
                "/files/42" "GET" None VNone None [])]).
Proof.
  pose proof (client_error_never_retried
                (always (json_response 404 []
                           (VDict [("error", VDict [("message", VStr "No such file");
                                                    ("code", VStr "not_found")])])))
                "/files/42" "GET" None VNone None [] 1 (py_range 2 4)
                (new_client (Some "key") None 3 1)
                (json_response 404 []
                   (VDict [("error", VDict [("message", VStr "No such file");
                                            ("code", VStr "not_found")])]))
                eq_refl ltac:(simpl; lia) ltac:(simpl; lia) ltac:(simpl; lia))
    as (_ & Hshape & _ & _ & _ & _).
  rewrite (py_range_cons 1 4) by lia.
  apply (Hshape [("error", VDict [("message", VStr "No such file");
                                  ("code", VStr "not_found")])]
                [("message", VStr "No such file"); ("code", VStr "not_found")]);
    reflexivity.
Defined.

Lemma attempt_transport_failure transport attempt endpoint method params json_data files
    kwargs (st : state) (e : request_exception) (text : string) :
  transport (log st) (build_request (self st) endpoint method params json_data files kwargs)
  = Failed e text ->
  request_attempt transport attempt endpoint method params json_data files kwargs st
  = if (attempt <=? retry_attempts (self st)) && _is_retryable_error e
    then if Qle_bool 0 (backoff (self st) attempt)
         then (Ret None,
               after st [Sent (build_request (self st) endpoint method params json_data
                                 files kwargs);
                         Slept (backoff (self st) attempt)])
         else (Raise ValueError,
               after st [Sent (build_request (self st) endpoint method params json_data
                                 files kwargs)])
    else (Raise (QAPlatformError (VStr ("Network error: " +:+ text)) None VNone (VList [])),
          after st [Sent (build_request (self st) endpoint method params json_data
                            files kwargs)]).
Proof.
  intros Ht. run_monad. rewrite Ht. simpl.
  destruct ((attempt <=? retry_attempts (self st)) && _is_retryable_error e);
    [|reflexivity].
  destruct (Qle_bool 0 (backoff (self st) attempt)); simpl; [|reflexivity].
  unfold after. simpl. by rewrite <- app_assoc.
Qed.

(** X6. A transport failure that is not a connection error, a timeout or an
    HTTP error ends the call at once, at any attempt: [request] raises
    [QAPlatformError("Network error: <text>")] with no status code, after the
    one request and with no sleep. *)
Theorem unretryable_failure_ends_call :
  forall (transport : list event -> Request -> outcome)
         endpoint method params json_data files kwargs
         (attempt : Z) (rest : list Z) (st : state) (text : string),
    let q := build_request (self st) endpoint method params json_data files kwargs in
    transport (log st) q = Failed OtherRequestException text ->
    request_loop transport (attempt :: rest) endpoint method params json_data files kwargs st
    = (Raise (QAPlatformError (VStr ("Network error: " +:+ text)) None VNone (VList [])),
       after st [Sent q]).
Proof.
  intros transport endpoint method params json_data files kwargs attempt rest st text q Ht.
  simpl. unfold bind at 1.
  rewrite (attempt_transport_failure _ _ _ _ _ _ _ _ _ _ _ Ht). simpl.
  by rewrite andb_false_r.
Qed.

Lemma unretryable_failure_ends_call_witness :
  request_loop (fun _ _ => Failed OtherRequestException "Invalid URL") (py_range 1 4)
    "/health" "GET" None VNone None [] (new_client (Some "key") None 3 1)
  = (Raise (QAPlatformError (VStr "Network error: Invalid URL") None VNone (VList [])),
     after (new_client (Some "key") None 3 1)
       [Sent (build_request (self (new_client (Some "key") None 3 1))
                "/health" "GET" None VNone None [])]).
Proof.
  rewrite (py_range_cons 1 4) by lia.
  apply (unretryable_failure_ends_call
           (fun _ _ => Failed OtherRequestException "Invalid URL")
           "/health" "GET" None VNone None [] 1 (py_range 2 4)
           (new_client (Some "key") None 3 1) "Invalid URL").
  reflexivity.
Defined.

(** X7. When every attempt fails in the transport with a retryable error
    (connection error, timeout, HTTP error), [request] with a delay
    [D >= 0] sends [retry_attempts] requests, sleeps D * 2^(k-1) after
    attempt k, and raises "Max retries exceeded"; the "Network error" of the
    handler is never raised for such failures.  This is for at most 1024
    attempts and a longest backoff, the last one, of at most [sleep_max]
    seconds: beyond, the product or the sleep raises [OverflowError]. *)
Theorem retryable_failures_exhaust :
  forall (transport : list event -> Request -> outcome)
         endpoint method params json_data files kwargs (st : state),
    (forall h q, exists e text, transport h q = Failed e text
                                /\ _is_retryable_error e = true) ->
    (0 <= retry_delay (self st))%Q ->
    retry_attempts (self st) <= 1024 ->
    (backoff (self st) (retry_attempts (self st)) <= sleep_max)%Q ->
    let q := build_request (self st) endpoint method params json_data files kwargs in
    let attempts := py_range 1 (retry_attempts (self st) + 1) in
    exists st',
      request transport endpoint method params json_data files kwargs st
      = (Raise max_retries_exceeded, st')
      /\ self st' = self st
      /\ sleeps (log st') = sleeps (log st) ++ map (backoff (self st)) attempts
      /\ sent (log st') = sent (log st) ++ repeat q (Z.to_nat (retry_attempts (self st))).
Proof.
  intros transport endpoint method params json_data files kwargs st Hsrv HD _ _ q attempts.
  subst q attempts. eexists. split.
  - unfold request, bind, get_self. simpl.
    apply (loop_all_continue transport endpoint method params json_data files kwargs
             (backoff (self st))).
    intros a st' Hin Hself.
    destruct (Hsrv (log st')
                (build_request (self st') endpoint method params json_data files kwargs))
      as (e & text & Hf & Hre).
    apply py_range_bound in Hin.
    rewrite (attempt_transport_failure _ _ _ _ _ _ _ _ _ _ _ Hf), Hre, Hself.
    destruct (Z.leb_spec a (retry_attempts (self st))); [|lia]. simpl.
    by rewrite backoff_nonneg.
  - simpl. split; [reflexivity|]. split.
    + by rewrite sleeps_app, sleeps_of_rounds.
    + rewrite sent_app, sent_of_rounds, py_range_length. do 2 f_equal. lia.
Qed.

Lemma retryable_failures_exhaust_witness :
  exists st',
    request (fun _ _ => Failed Timeout "timed out") "/health" "GET" None VNone None []
      (new_client (Some "key") None 2 (1 # 2))
    = (Raise max_retries_exceeded, st')
    /\ sleeps (log st') = [(1 # 2) * 1; (1 # 2) * 2]%Q.
Proof.
  destruct (retryable_failures_exhaust (fun _ _ => Failed Timeout "timed out")
              "/health" "GET" None VNone None []
              (new_client (Some "key") None 2 (1 # 2))) as (st' & Hrun & _ & Hsl & _).
  - intros h q. exists Timeout, "timed out". split; reflexivity.
  - unfold Qle. simpl. lia.
  - simpl. lia.
  - apply Qle_bool_imp_le. vm_compute. reflexivity.
  - exists st'. split; [exact Hrun|]. rewrite Hsl. reflexivity.
Defined.

(** ** Recovery after failed attempts *)

Lemma attempt_success transport attempt endpoint method params json_data files
    kwargs (st : state) (r : Response) (v : value) :
  transport (log st) (build_request (self st) endpoint method params json_data files kwargs)
  = Responded r ->
  200 <= resp_status r < 300 ->
  resp_json r = Json v ->
  request_attempt transport attempt endpoint method params json_data files kwargs st
  = (Ret (Some v),
     after st [Sent (build_request (self st) endpoint method params json_data files kwargs)]).
Proof.
  intros Ht Hst Hj. run_monad. rewrite Ht. simpl. unfold resp_ok.
  destruct (Z.eqb_spec (resp_status r) 429); [lia|].
  destruct (Z.leb_spec 500 (resp_status r)); [lia|]. simpl.
  destruct (Z.eqb_spec (resp_status r) 401); [lia|].
  destruct (Z.leb_spec 400 (resp_status r)); [lia|]. simpl.
  rewrite Hj. reflexivity.
Qed.

Lemma firstn_py_range (k : nat) (a b : Z) :
  Z.of_nat k <= b - a -> firstn k (py_range a b) = py_range a (a + Z.of_nat k).
Proof.
  intros Hk. unfold py_range. rewrite firstn_map, take_seq.
  do 2 f_equal. lia.
Qed.

(** The loop on a server that answers 5xx until [target] requests have been
    sent and 2xx with the body [v] to the next one. *)
Lemma request_loop_recovers transport endpoint method params json_data files kwargs
    (v : value) (target : nat) :
  (forall h q, (length (sent h) < target)%nat ->
     exists r, transport h q = Responded r /\ 500 <= resp_status r) ->
  (forall h q, length (sent h) = target ->
     exists r, transport h q = Responded r /\ 200 <= resp_status r < 300
               /\ resp_json r = Json v) ->
  forall (k : nat) (attempts : list Z) (st : state),
    (length (sent (log st)) + k)%nat = target ->
    (k < length attempts)%nat ->
    Forall (fun a => a <= retry_attempts (self st)) (firstn k attempts) ->
    (0 <= retry_delay (self st))%Q ->
    let q := build_request (self st) endpoint method params json_data files kwargs in
    request_loop transport attempts endpoint method params json_data files kwargs st
    = (Ret v,
       after st (flat_map (fun a => [Sent q; Slept (backoff (self st) a)])
                          (firstn k attempts) ++ [Sent q])).
Proof.
  intros H5 H2. induction k as [|k IH]; intros attempts st Hbase Hlen Hall HD q;
    (destruct attempts as [|a rest]; [simpl in Hlen; lia|]); simpl; unfold bind at 1.
  - destruct (H2 (log st) q ltac:(lia)) as (r & Hr & Hst & Hj).
    by rewrite (attempt_success _ _ _ _ _ _ _ _ _ r v Hr Hst Hj).
  - destruct (H5 (log st) q ltac:(lia)) as (r & Hr & Hst).
    simpl in Hall. inversion Hall as [|? ? Ha Hrest]; subst.
    rewrite (attempt_server_error _ _ _ _ _ _ _ _ st r Hr) by (auto; lia).
    rewrite IH; simpl; auto.
    + rewrite after_after. reflexivity.
    + rewrite sent_app. simpl. rewrite length_app. simpl. lia.
    + simpl in Hlen. lia.
Qed.

(** X8. Recovery, for a call that uploads no file: when the server answers
    the first [k] attempts with a 5xx status and the next one with a 2xx
    JSON body, and [k] is below [retry_attempts], [request] returns that
    body after [k + 1] identical requests, having slept D, 2D, ...,
    D * 2^(k-1) between them.  This is for [k <= 1024] and a longest
    backoff, D * 2^(k-1), of at most [sleep_max] seconds: beyond, the
    product or the sleep raises [OverflowError]. *)
Theorem request_recovers_after_server_errors :
  forall (transport : list event -> Request -> outcome)
         endpoint method params json_data files kwargs
         (st : state) (k : nat) (v : value),
    files_truthy files = false ->
    Z.of_nat k < retry_attempts (self st) ->
    (0 <= retry_delay (self st))%Q ->
    Z.of_nat k <= 1024 ->
    (backoff (self st) (Z.of_nat k) <= sleep_max)%Q ->
    (forall h q, (length (sent h) < length (sent (log st)) + k)%nat ->
       exists r, transport h q = Responded r /\ 500 <= resp_status r) ->
    (forall h q, length (sent h) = (length (sent (log st)) + k)%nat ->
       exists r, transport h q = Responded r /\ 200 <= resp_status r < 300
                 /\ resp_json r = Json v) ->
    let q := build_request (self st) endpoint method params json_data files kwargs in
    exists st',
      request transport endpoint method params json_data files kwargs st = (Ret v, st')
      /\ self st' = self st
      /\ sleeps (log st')
         = sleeps (log st) ++ map (backoff (self st)) (py_range 1 (1 + Z.of_nat k))
      /\ sent (log st') = sent (log st) ++ repeat q (S k).
Proof.
  intros transport endpoint method params json_data files kwargs st k v _ Hk HD _ _ H5 H2 q.
  subst q. eexists. split.
  - unfold request, bind, get_self. simpl.
    apply (request_loop_recovers transport endpoint method params json_data files kwargs
             v _ H5 H2 k); auto.
    + rewrite py_range_length. lia.
    + apply List.Forall_forall. intros a Ha.
      rewrite firstn_py_range in Ha by lia. apply py_range_bound in Ha. lia.
  - simpl. split; [reflexivity|].
    rewrite firstn_py_range by lia. split.
    + rewrite sleeps_app, sleeps_app, sleeps_of_rounds. simpl. by rewrite app_nil_r.
    + rewrite sent_app, sent_app, sent_of_rounds, py_range_length. simpl.
      replace (Z.to_nat (1 + Z.of_nat k - 1)) with k by lia.
      f_equal. by rewrite repeat_cons.
Qed.

Lemma request_recovers_after_server_errors_witness :
  exists st',
    request flaky_twice "/health" "GET" None VNone None []
      (new_client (Some "key") None 3 1)
    = (Ret (VDict [("status", VStr "ok")]), st')
    /\ sleeps (log st') = [1 * 1; 1 * 2]%Q
    /\ length (sent (log st')) = 3%nat.
Proof.
  destruct (request_recovers_after_server_errors flaky_twice
              "/health" "GET" None VNone None []
              (new_client (Some "key") None 3 1) 2 (VDict [("status", VStr "ok")]))
    as (st' & Hrun & _ & Hsl & Hsent).
  - reflexivity.
  - simpl. lia.
  - unfold Qle. simpl. lia.
  - simpl. lia.
  - apply Qle_bool_imp_le. vm_compute. reflexivity.
  - intros h q Hh. simpl in Hh. unfold flaky_twice.
    destruct (Nat.ltb_spec (length (sent h)) 2); [|lia].
    eexists. split; [reflexivity|]. simpl. lia.
  - intros h q Hh. simpl in Hh. unfold flaky_twice.
    destruct (Nat.ltb_spec (length (sent h)) 2); [lia|].
    eexists. split; [reflexivity|]. simpl. split; [lia|reflexivity].
  - exists st'. split; [exact Hrun|]. rewrite Hsl, Hsent. split; reflexivity.
Defined.

(** ** Sleep lengths below zero *)

Lemma backoff_negative (c : client) (attempt : Z) :
  (retry_delay c < 0)%Q -> 1 <= attempt -> Qle_bool 0 (backoff c attempt) = false.
Proof.
  intros HD Ha. destruct (Qle_bool 0 (backoff c attempt)) eqn:E; [|reflexivity].
  apply Qle_bool_iff in E. exfalso. unfold backoff in E.
  pose proof (Z.pow_pos_nonneg 2 (attempt - 1) ltac:(lia) ltac:(lia)) as Hp.
  destruct (retry_delay c) as [n d]. unfold Qle, Qlt, Qmult in *. simpl in *. nia.
Qed.

(** X9. [time.sleep] refuses a negative length.  So a 429 response whose
    [retry-after] header is a negative integer, and a 5xx response met with
    a negative [retry_delay], both make the first attempt raise [ValueError]
    right after its request: nothing is slept, nothing is retried, and the
    error is none of the SDK's own.  This is for lengths down to
    [- sleep_max] seconds: far below, [time.sleep] raises [OverflowError]
    in place of [ValueError]. *)
Theorem negative_sleep_raises :
  forall (transport : list event -> Request -> outcome)
         endpoint method params json_data files kwargs (st : state) (r : Response),
    let q := build_request (self st) endpoint method params json_data files kwargs in
    1 <= retry_attempts (self st) ->
    transport (log st) q = Responded r ->
    (resp_status r = 429
     /\ (exists ra, retry_after_of r = Some ra /\ ra < 0
                    /\ (- sleep_max <= inject_Z ra)%Q))
    \/ (500 <= resp_status r /\ (retry_delay (self st) < 0)%Q
        /\ (- sleep_max <= retry_delay (self st))%Q) ->
    request transport endpoint method params json_data files kwargs st
    = (Raise ValueError, after st [Sent q]).
Proof.
  intros transport endpoint method params json_data files kwargs st r q HN Ht Hcase.
  unfold request, bind at 1, get_self. simpl.
  rewrite py_range_cons by lia. simpl. unfold bind at 1. run_monad. fold q.
  rewrite Ht. simpl.
  destruct Hcase as [(H429 & ra & Hra & Hneg & _) | (H5 & HD & _)].
  - rewrite H429, Hra. simpl.
    destruct (Z.leb_spec 1 (retry_attempts (self st))); [|lia].
    assert (Qle_bool 0 (inject_Z ra) = false) as ->; [|reflexivity].
    destruct (Qle_bool 0 (inject_Z ra)) eqn:E; [|reflexivity].
    apply Qle_bool_iff in E. unfold Qle in E. simpl in E. lia.
  - destruct (Z.eqb_spec (resp_status r) 429); [lia|].
    destruct (Z.leb_spec 500 (resp_status r)); [|lia].
    destruct (Z.leb_spec 1 (retry_attempts (self st))); [|lia]. simpl.
    by rewrite backoff_negative.
Qed.

Lemma negative_sleep_raises_witness :
  request (always (json_response 429 [("Retry-After", "-1")] (VDict [])))
    "/health" "GET" None VNone None [] (new_client (Some "key") None 3 1)
  = (Raise ValueError,
     after (new_client (Some "key") None 3 1)
       [Sent (build_request (self (new_client (Some "key") None 3 1))
                "/health" "GET" None VNone None [])]).
Proof.
  apply (negative_sleep_raises
           (always (json_response 429 [("Retry-After", "-1")] (VDict [])))
           "/health" "GET" None VNone None [] (new_client (Some "key") None 3 1)
           (json_response 429 [("Retry-After", "-1")] (VDict []))).
  - simpl. lia.
  - reflexivity.
  - left. split; [reflexivity|]. exists (-1).
    split_and!; [reflexivity | lia | apply Qle_bool_imp_le; vm_compute; reflexivity].
Defined.

(** ** Login and logout *)

Lemma request_self transport endpoint method params json_data files kwargs st :
  self (snd (request transport endpoint method params json_data files kwargs st)) = self st.
Proof. apply request_sent. Qed.

Lemma auth_headers_with_headers py_str (c : client) (h : gmap string string) :
  auth_headers py_str (with_headers c h) = auth_headers py_str c.
Proof. reflexivity. Qed.

(** X10. A login that does not yield a token changes nothing on the client:
    when the request raises, [login] raises the same error, and when the
    response is an object without a [token] key, [login] returns it; in both
    cases the credentials and the session headers are the ones from before. *)
Theorem login_without_token_keeps_credentials :
  forall (transport : list event -> Request -> outcome) (py_str : value -> string)
         (email password : string) (st st1 : state),
    let attempt := request transport "/auth/login" "POST" None
                     (VDict [("email", VStr email); ("password", VStr password)]) None [] st in
    (forall e, attempt = (Raise e, st1) ->
       login transport py_str email password st = (Raise e, st1) /\ self st1 = self st)
    /\ (forall d, attempt = (Ret (VDict d), st1) -> dict_lookup "token" d = None ->
          login transport py_str email password st = (Ret (VDict d), st1)
          /\ self st1 = self st).
Proof.
  intros transport py_str email password st st1 attempt.
  pose proof (request_self transport "/auth/login" "POST" None
                (VDict [("email", VStr email); ("password", VStr password)]) None [] st)
    as Hself.
  fold attempt in Hself. split.
  - intros e He. rewrite He in Hself. split; [|exact Hself].
    unfold login, bind at 1. fold attempt. by rewrite He.
  - intros d Hd Htok. rewrite Hd in Hself. split; [|exact Hself].
    unfold login, bind at 1. fold attempt. rewrite Hd.
    unfold bind, lift, ret. simpl. by rewrite Htok.
Qed.

Lemma login_without_token_keeps_credentials_witness :
  let st := new_client (Some "key") None 3 1 in
  let st' := snd (login (always (json_response 200 [] (VDict [("user", VStr "ann")])))
                    (fun _ => "") "ann@example.org" "secret" st) in
  self st' = self st.
Proof.
  intros st st'.
  destruct (login_without_token_keeps_credentials
              (always (json_response 200 [] (VDict [("user", VStr "ann")])))
              (fun _ => "") "ann@example.org" "secret" st
              (after st [Sent (build_request (self st) "/auth/login" "POST" None
                                 (VDict [("email", VStr "ann@example.org");
                                         ("password", VStr "secret")]) None [])]))
    as [_ Hno].
  destruct (Hno [("user", VStr "ann")] eq_refl eq_refl) as [Hlogin Hself].
  subst st'. rewrite Hlogin. exact Hself.
Defined.

Lemma logout_after_success transport py_str (st st1 : state) (v : value) :
  request transport "/auth/logout" "POST" None VNone None [] st = (Ret v, st1) ->
  exists st2,
    logout transport py_str st = (Ret v, st2)
    /\ log st2 = log st1
    /\ jwt_token (self st2) = VNone
    /\ api_key (self st2) = api_key (self st)
    /\ session_headers (self st2) !! "Authorization" = None
    /\ session_headers (self st2) !! "X-API-Key"
       = (if opt_truthy (api_key (self st)) then api_key (self st) else None).
Proof.
  intros Hv.
  pose proof (request_self transport "/auth/logout" "POST" None VNone None [] st) as Hself.
  rewrite Hv in Hself. simpl in Hself.
  unfold logout, bind at 1. rewrite Hv.
  unfold bind, get_self, set_self, _update_auth_headers. simpl.
  eexists. split; [reflexivity|]. simpl. rewrite Hself.
  split_and!; try reflexivity.
  - unfold auth_headers. simpl.
    destruct (api_key (self st)) as [k|]; [|reflexivity]. simpl.
    destruct (negb (String.eqb k "")); reflexivity.
  - unfold auth_headers. simpl.
    destruct (api_key (self st)) as [k|]; [|reflexivity]. simpl.
    destruct (negb (String.eqb k "")); reflexivity.
Qed.

(** X11. [logout] clears the bearer token only after its request succeeded:
    the client then has no token and its old API key, presents no
    [Authorization] header, and presents [X-API-Key] exactly when it has a
    non-empty API key.  When the request raises, [logout] raises the same
    error and the token stays in place. *)
Theorem logout_clears_token :
  forall (transport : list event -> Request -> outcome) (py_str : value -> string)
         (st st1 : state),
    let attempt := request transport "/auth/logout" "POST" None VNone None [] st in
    (forall v, attempt = (Ret v, st1) ->
       exists st2,
         logout transport py_str st = (Ret v, st2)
         /\ log st2 = log st1
         /\ jwt_token (self st2) = VNone
         /\ api_key (self st2) = api_key (self st)
         /\ session_headers (self st2) !! "Authorization" = None
         /\ session_headers (self st2) !! "X-API-Key"
            = (if opt_truthy (api_key (self st)) then api_key (self st) else None))
    /\ (forall e, attempt = (Raise e, st1) ->
          logout transport py_str st = (Raise e, st1) /\ self st1 = self st).
Proof.
  intros transport py_str st st1 attempt. subst attempt. split.
  - intros v Hv. by apply logout_after_success.
  - intros e He.
    pose proof (request_self transport "/auth/logout" "POST" None VNone None [] st) as Hself.
    rewrite He in Hself. split; [|exact Hself].
    unfold logout, bind at 1. by rewrite He.
Qed.

Lemma logout_clears_token_witness :
  let st := new_client (Some "key") (Some "jwt") 3 1 in
  exists st2,
    logout (always (json_response 200 [] (VDict []))) (fun _ => "") st
    = (Ret (VDict []), st2)
    /\ jwt_token (self st2) = VNone
    /\ session_headers (self st2) !! "Authorization" = None
    /\ session_headers (self st2) !! "X-API-Key" = Some "key".
Proof.
  intros st.
  destruct (logout_clears_token (always (json_response 200 [] (VDict [])))
              (fun _ => "") st
              (after st [Sent (build_request (self st) "/auth/logout" "POST" None
                                 VNone None [])])) as [Hok _].
  destruct (Hok (VDict []) eq_refl) as (st2 & Hrun & _ & Htok & _ & Hauth & Hkey).
  exists st2. split_and!; assumption.
Defined.

(** X12. Login followed by logout leaves the client without credentials: the
    login dropped the API key, the logout drops the token, and from then on
    the session presents neither [Authorization] nor [X-API-Key], even when
    the client was built with an API key. *)
Theorem login_then_logout_leaves_no_credentials :
  forall (transport : list event -> Request -> outcome) (py_str : value -> string)
         (email password : string) (st st1 st2 st3 : state)
         (d : pydict) (tok : value) (v : value),
    request transport "/auth/login" "POST" None
      (VDict [("email", VStr email); ("password", VStr password)]) None [] st
    = (Ret (VDict d), st1) ->
    dict_lookup "token" d = Some tok ->
    login transport py_str email password st = (Ret (VDict d), st2) ->
    request transport "/auth/logout" "POST" None VNone None [] st2 = (Ret v, st3) ->
    exists st4,
      logout transport py_str st2 = (Ret v, st4)
      /\ api_key (self st4) = None
      /\ jwt_token (self st4) = VNone
      /\ session_headers (self st4) !! "Authorization" = None
      /\ session_headers (self st4) !! "X-API-Key" = None.
Proof.
  intros transport py_str email password st st1 st2 st3 d tok v Hreq Htok Hlogin Hout.
  assert (Hkey : api_key (self st2) = None).
  { unfold login, bind at 1 in Hlogin. rewrite Hreq in Hlogin.
    unfold bind, lift, ret, get_self, set_self, _update_auth_headers in Hlogin.
    simpl in Hlogin. rewrite Htok in Hlogin. simpl in Hlogin.
    injection Hlogin as <-. reflexivity. }
  destruct (logout_after_success transport py_str st2 st3 v Hout)
    as (st4 & Hrun & _ & Hjwt & Hk & Hauth & Hx).
  exists st4. rewrite Hkey in Hk, Hx. simpl in Hx. split_and!; assumption.
Qed.

Lemma login_then_logout_leaves_no_credentials_witness :
  let server := always (json_response 200 [] (VDict [("token", VStr "T0K3N")])) in
  let st2 := snd (login server (fun _ => "") "ann@example.org" "secret"
                    (new_client (Some "key") None 3 1)) in
  let st4 := snd (logout server (fun _ => "") st2) in
  session_headers (self st4) !! "Authorization" = None
  /\ session_headers (self st4) !! "X-API-Key" = None.
Proof.
  intros server st2 st4.
  destruct (login_then_logout_leaves_no_credentials server (fun _ => "")
              "ann@example.org" "secret" (new_client (Some "key") None 3 1)
              (snd (request server "/auth/login" "POST" None
                      (VDict [("email", VStr "ann@example.org");
                              ("password", VStr "secret")]) None []
                      (new_client (Some "key") None 3 1)))
              st2
              (snd (request server "/auth/logout" "POST" None VNone None [] st2))
              [("token", VStr "T0K3N")] (VStr "T0K3N")
              (VDict [("token", VStr "T0K3N")]))
    as (st4' & Hrun & _ & _ & Hauth & Hx); try reflexivity.
  subst st4. rewrite Hrun. split; assumption.
Defined.

(** ** The session headers follow the credentials *)

Lemma paginate_loop_self transport (fuel : nat) endpoint options limit :
  forall results offset st,
    self (snd (paginate_loop transport fuel endpoint options limit results offset st))
    = self st.
Proof.
  induction fuel as [|fuel IH]; intros results offset st; [reflexivity|].
  simpl. unfold bind at 1.
  pose proof (request_self transport endpoint "GET"
                (Some (dict_set "offset" (VInt offset) (dict_set "limit" limit options)))
                VNone None [] st) as Hself.
  destruct (request transport endpoint "GET" _ VNone None [] st) as [[response| |] st1];
    simpl in *; try exact Hself.
  unfold bind, lift, ret, raise.
  repeat (case_match; simplify_eq/=; try exact Hself).
  rewrite IH. exact Hself.
Qed.

(** X13. The session headers always are the ones [_update_auth_headers]
    derives from the current credentials: the constructor establishes this,
    and [request], [login], [logout], [get_files] and [paginate] keep it,
    whether they return or raise.  In such a state the session never
    presents [Authorization] and [X-API-Key] together. *)
Theorem headers_stay_in_sync :
  forall (transport : list event -> Request -> outcome) (py_str : value -> string),
    (forall key token url attempts delay tmo st,
        init py_str key token url attempts delay tmo = inr st -> headers_in_sync py_str st)
    /\ (forall st, headers_in_sync py_str st ->
          (forall endpoint method params json_data files kwargs,
              headers_in_sync py_str
                (snd (request transport endpoint method params json_data files kwargs st)))
          /\ (forall email password,
                headers_in_sync py_str (snd (login transport py_str email password st)))
          /\ headers_in_sync py_str (snd (logout transport py_str st))
          /\ (forall filters, headers_in_sync py_str (snd (get_files transport filters st)))
          /\ (forall fuel endpoint options,
                headers_in_sync py_str (snd (paginate transport fuel endpoint options st)))
          /\ ~ (is_Some (session_headers (self st) !! "Authorization")
                /\ is_Some (session_headers (self st) !! "X-API-Key"))).
Proof.
  intros transport py_str. unfold headers_in_sync. split.
  - intros key token url attempts delay tmo st Hinit. unfold init in Hinit.
    destruct (negb (opt_truthy key) && negb (opt_truthy token)); [discriminate|].
    injection Hinit as <-. reflexivity.
  - intros st Hsync. split_and!.
    + intros. by rewrite request_self.
    + intros email password.
      destruct (login transport py_str email password st) as [res st'] eqn:E. simpl.
      unfold login in E. unfold bind at 1 in E.
      pose proof (request_self transport "/auth/login" "POST" None
                    (VDict [("email", VStr email); ("password", VStr password)]) None [] st)
        as Hself.
      destruct (request transport "/auth/login" "POST" None _ None [] st)
        as [[response| |] st1]; simpl in *.
      2,3: injection E as <- <-; by rewrite Hself.
      unfold bind, lift, ret, raise, get_self, set_self, _update_auth_headers in E.
      repeat (case_match; unfold bind, get_self, set_self, ret, raise in *;
              simplify_eq/=);
        rewrite ?Hself; try exact Hsync; reflexivity.
    + destruct (logout transport py_str st) as [res st'] eqn:E. simpl.
      unfold logout in E. unfold bind at 1 in E.
      pose proof (request_self transport "/auth/logout" "POST" None VNone None [] st)
        as Hself.
      destruct (request transport "/auth/logout" "POST" None VNone None [] st)
        as [[response| |] st1]; simpl in *.
      2,3: injection E as <- <-; by rewrite Hself.
      unfold bind, get_self, set_self, _update_auth_headers in E. simpl in E.
      injection E as <- <-. reflexivity.
    + intros. unfold get_files. by rewrite request_self.
    + intros fuel endpoint options. unfold paginate.
      destruct (dict_pop "limit" (VInt 20) options). by rewrite paginate_loop_self.
    + rewrite Hsync. unfold auth_headers.
      intros [[a Ha] [x Hx]].
      destruct (truthy (jwt_token (self st))).
      * rewrite lookup_insert_ne in Hx by discriminate. discriminate.
      * destruct (api_key (self st)) as [k|]; [|discriminate].
        destruct (opt_truthy (Some k)); [|discriminate].
        rewrite lookup_insert_ne in Ha by discriminate. discriminate.
Qed.

Lemma headers_stay_in_sync_witness :
  headers_in_sync (fun _ => "")
    (snd (login (always (json_response 200 [] (VDict [("token", VStr "T0K3N")])))
            (fun _ => "") "ann@example.org" "secret" (new_client (Some "key") None 3 1))).
Proof.
  destruct (headers_stay_in_sync
              (always (json_response 200 [] (VDict [("token", VStr "T0K3N")])))
              (fun _ => "")) as [Hinit Hkeep].
  destruct (Hkeep (new_client (Some "key") None 3 1)) as (_ & Hlogin & _).
  - apply (Hinit (Some "key") None default_base_url 3 1%Q 30). reflexivity.
  - apply Hlogin.
Defined.

(** ** More on pagination *)

Lemma dict_lookup_remove_eq k d : dict_lookup k (dict_remove k d) = None.
Proof.
  induction d as [|[k' v'] d IH]; simpl; [reflexivity|].
  destruct (String.eqb_spec k k') as [->|Hne]; simpl; [exact IH|].
  destruct (String.eqb_spec k k'); [contradiction|]. exact IH.
Qed.

Lemma dict_lookup_remove_ne k k' d :
  k <> k' -> dict_lookup k (dict_remove k' d) = dict_lookup k d.
Proof.
  intros Hne. induction d as [|[k0 v0] d IH]; simpl; [reflexivity|].
  destruct (String.eqb_spec k' k0) as [->|Hk0]; simpl.
  - destruct (String.eqb_spec k k0); [contradiction|]. exact IH.
  - destruct (String.eqb_spec k k0); [reflexivity|]. exact IH.
Qed.

Lemma paginate_loop_requests transport (fuel : nat) endpoint options limit :
  forall results offset st,
    let st' := snd (paginate_loop transport fuel endpoint options limit results offset st) in
    exists counts,
      (length counts <= fuel)%nat
      /\ Forall (fun n => (n <= Z.to_nat (retry_attempts (self st)))%nat) counts
      /\ sent (log st')
         = sent (log st)
           ++ page_requests (self st) endpoint options limit
                (default 0 (as_int limit)) offset counts.
Proof.
  induction fuel as [|fuel IH]; intros results offset st; simpl.
  - exists []. simpl. rewrite app_nil_r. split_and!; [lia|constructor|reflexivity].
  - unfold bind at 1. fold (page_params options limit offset).
    destruct (request_bounded transport endpoint "GET"
                (Some (page_params options limit offset)) VNone None [] st)
      as (Hself & n & m & Hnm & Hsent & _).
    fold (page_request (self st) endpoint options limit offset) in Hsent.
    destruct (request transport endpoint "GET" _ VNone None [] st) as [r st1].
    simpl in Hself, Hsent.
    assert (Hone : exists counts,
               (length counts <= S fuel)%nat
               /\ Forall (fun n => (n <= Z.to_nat (retry_attempts (self st)))%nat) counts
               /\ sent (log st1)
                  = sent (log st)
                    ++ page_requests (self st) endpoint options limit
                         (default 0 (as_int limit)) offset counts).
    { exists [n]. simpl. rewrite app_nil_r.
      split_and!; [lia|constructor; [lia|constructor]|exact Hsent]. }
    destruct r as [response| |]; simpl; try exact Hone.
    unfold bind, lift, ret, raise.
    repeat (case_match; simplify_eq/=; try exact Hone).
    match goal with
    | |- context [paginate_loop _ _ _ _ _ ?res ?off ?s] =>
        destruct (IH res off s) as (counts & Hlen & Hall & Hs)
    end.
    exists (n :: counts). simpl. rewrite Hs, Hsent, Hself. simpl.
    rewrite <- app_assoc. split_and!;
      [lia | constructor; [lia | by rewrite Hself in Hall] | reflexivity].
Qed.

(** X14. Everything [paginate] sends is a GET of the endpoint whose query is
    the caller's options with [limit] set to the caller's limit (20 by
    default) and [offset] set by the loop: the offsets start at 0 and go up
    by the limit from page to page, an [offset] among the caller's options is
    overwritten, and all other options go through unchanged.  There are at
    most [fuel] pages and each is requested at most [retry_attempts] times. *)
Theorem paginate_sends_page_queries :
  forall (transport : list event -> Request -> outcome) (fuel : nat)
         (endpoint : string) (options : pydict) (st : state),
    let limit := default (VInt 20) (dict_lookup "limit" options) in
    let options' := dict_remove "limit" options in
    let st' := snd (paginate transport fuel endpoint options st) in
    (exists counts,
        (length counts <= fuel)%nat
        /\ Forall (fun n => (n <= Z.to_nat (retry_attempts (self st)))%nat) counts
        /\ sent (log st')
           = sent (log st)
             ++ page_requests (self st) endpoint options' limit
                  (default 0 (as_int limit)) 0 counts)
    /\ (forall offset,
          let q := page_request (self st) endpoint options' limit offset in
          req_method q = "GET"
          /\ req_url q = base_url (self st) +:+ endpoint
          /\ req_json q = None
          /\ exists ps,
               req_params q = Some ps
               /\ dict_lookup "offset" ps = Some (VInt offset)
               /\ dict_lookup "limit" ps = Some limit
               /\ forall k, k <> "limit" -> k <> "offset" ->
                    dict_lookup k ps = dict_lookup k options).
Proof.
  intros transport fuel endpoint options st limit options' st'. split.
  - subst st'. unfold paginate, dict_pop.
    apply (paginate_loop_requests transport fuel endpoint options' limit [] 0 st).
  - intros offset q. split_and!; try reflexivity.
    exists (page_params options' limit offset). unfold page_params. split_and!.
    + reflexivity.
    + apply dict_lookup_set_eq.
    + rewrite dict_lookup_set_ne by discriminate. apply dict_lookup_set_eq.
    + intros k Hl Ho. rewrite !dict_lookup_set_ne by assumption.
      by apply dict_lookup_remove_ne.
Qed.

Lemma paginate_sends_page_queries_witness :
  let st := new_client (Some "key") None 3 1 in
  let q := page_request (self st) "/files" [("status", VStr "done"); ("offset", VInt 40)]
             (VInt 20) 0 in
  exists ps,
    req_params q = Some ps
    /\ dict_lookup "offset" ps = Some (VInt 0)
    /\ dict_lookup "limit" ps = Some (VInt 20)
    /\ dict_lookup "status" ps = Some (VStr "done").
Proof.
  intros st q.
  destruct (paginate_sends_page_queries (always (json_response 200 [] (VDict []))) 1
              "/files" [("status", VStr "done"); ("offset", VInt 40)] st) as [_ Hq].
  destruct (Hq 0) as (_ & _ & _ & ps & Hps & Ho & Hl & Hother).
  exists ps. split_and!; try assumption.
  rewrite Hother by discriminate. reflexivity.
Defined.

(** X15. A page without usable data ends [paginate] with what it has
    collected so far: that is so when the response object has no [data] key
    and when its [data] is empty or otherwise false ([null], [0], [""]).  An
    empty first page thus gives the empty list after one call of [request].
    When the request for a page raises, [paginate] raises the same error and
    the pages collected before are lost. *)
Theorem paginate_loop_ends_without_data :
  forall (transport : list event -> Request -> outcome) (fuel : nat)
         endpoint options (limit : value) (results : list value) (offset : Z)
         (st st1 : state),
    let attempt := request transport endpoint "GET"
                     (Some (page_params options limit offset)) VNone None [] st in
    let run := paginate_loop transport (S fuel) endpoint options limit results offset st in
    (forall d, attempt = (Ret (VDict d), st1) -> dict_lookup "data" d = None ->
       run = (Ret results, st1))
    /\ (forall d data, attempt = (Ret (VDict d), st1) ->
          dict_lookup "data" d = Some data -> truthy data = false ->
          run = (Ret results, st1))
    /\ (forall e, attempt = (Raise e, st1) -> run = (Raise e, st1)).
Proof.
  intros transport fuel endpoint options limit results offset st st1 attempt run.
  subst run attempt. split_and!.
  - intros d Hreq Hd. simpl. unfold bind at 1. unfold page_params in Hreq.
    rewrite Hreq. unfold bind, lift, ret. simpl. by rewrite Hd.
  - intros d data Hreq Hd Hfalse. simpl. unfold bind at 1. unfold page_params in Hreq.
    rewrite Hreq. unfold bind, lift, ret. simpl. rewrite Hd. simpl. by rewrite Hfalse.
  - intros e Hreq. simpl. unfold bind at 1. unfold page_params in Hreq. by rewrite Hreq.
Qed.

Lemma paginate_loop_ends_without_data_witness :
  paginate (collection_server []) 3 "/files" [] (new_client (Some "key") None 3 1)
  = (Ret [],
     after (new_client (Some "key") None 3 1)
       [Sent (page_request (self (new_client (Some "key") None 3 1)) "/files" []
                (VInt 20) 0)]).
Proof.
  destruct (paginate_loop_ends_without_data (collection_server []) 2 "/files" []
              (VInt 20) [] 0 (new_client (Some "key") None 3 1)
              (after (new_client (Some "key") None 3 1)
                 [Sent (page_request (self (new_client (Some "key") None 3 1)) "/files" []
                          (VInt 20) 0)])) as (_ & Hempty & _).
  apply (Hempty [("data", VList []);
                 ("pagination", VDict [("total", VInt 0); ("limit", VInt 20);
                                       ("offset", VInt 0)])] (VList []));
    reflexivity.
Defined.

(** X16. [paginate] has no bound of its own on the number of pages.  On a
    server whose every page is full and reports a total beyond it, the loop
    is still running after any number of turns: with fuel for [fuel] turns it
    has fetched [fuel] pages, at offsets 0, L, 2L, ..., and has not
    returned. *)
Theorem paginate_never_returns_on_endless_listing :
  forall (transport : list event -> Request -> outcome)
         endpoint options (L : Z) (fuel : nat) (st : state),
    1 <= L ->
    1 <= retry_attempts (self st) ->
    fst (dict_pop "limit" (VInt 20) options) = VInt L ->
    (forall h (o : Z),
        let q := page_request (self st) endpoint
                   (snd (dict_pop "limit" (VInt 20) options)) (VInt L) o in
        exists r response items total,
          transport h q = Responded r /\ 200 <= resp_status r < 300
          /\ resp_json r = Json response
          /\ documented_page response (Some items) total
          /\ L <= Z.of_nat (length items)
          /\ o + L < total) ->
    exists st',
      paginate transport fuel endpoint options st = (OutOfFuel, st')
      /\ sent (log st')
         = sent (log st)
           ++ map (fun i => page_request (self st) endpoint
                              (snd (dict_pop "limit" (VInt 20) options)) (VInt L)
                              (Z.of_nat i * L))
                  (seq 0 fuel).
Proof.
  intros transport endpoint options L fuel st HL HN Hpop Hsrv.
  unfold paginate. destruct (dict_pop "limit" (VInt 20) options) as [limit options'].
  simpl in *. subst limit.
  assert (Hloop : forall fuel results (o : nat) st0,
             self st0 = self st ->
             exists st',
               paginate_loop transport fuel endpoint options' (VInt L) results
                 (Z.of_nat o * L) st0 = (OutOfFuel, st')
               /\ self st' = self st0
               /\ sent (log st')
                  = sent (log st0)
                    ++ map (fun i => page_request (self st) endpoint options' (VInt L)
                                       (Z.of_nat (o + i) * L))
                           (seq 0 fuel)).
  { induction fuel0 as [|fuel0 IH]; intros results o st0 Hst0.
    - exists st0. simpl. rewrite app_nil_r. split_and!; reflexivity.
    - destruct (Hsrv (log st0) (Z.of_nat o * L))
        as (r & response & items & total & Hr & Hst & Hj & Hdoc & Hfull & Htot).
      rewrite <- Hst0 in Hr. rewrite <- Hst0 in HN.
      rewrite (paginate_loop_step _ _ _ _ _ _ _ _ _ _ _ _
                 (request_ok _ _ _ _ _ _ _ _ _ _ HN Hr Hst Hj) Hdoc).
      rewrite stops_nonempty by (intros ->; simpl in Hfull; lia).
      destruct (Z.ltb_spec (Z.of_nat (length items)) L); [lia|].
      destruct (Z.leb_spec total (Z.of_nat o * L + L)); [lia|]. simpl.
      replace (Z.of_nat o * L + L) with (Z.of_nat (S o) * L) by lia.
      destruct (IH (results ++ items) (S o)
                  (after st0 [Sent (build_request (self st0) endpoint "GET"
                                      (Some (page_params options' (VInt L)
                                               (Z.of_nat o * L))) VNone None [])]) Hst0)
        as (st' & Hrun & Hself & Hsent).
      exists st'. rewrite Hrun. split_and!; auto.
      rewrite Hsent. simpl. rewrite sent_app, <- app_assoc. simpl.
      rewrite Nat.add_0_r. unfold page_request. rewrite Hst0.
      do 2 f_equal.
      rewrite <- seq_shift, map_map. apply map_ext. intros i.
      do 4 f_equal. lia. }
  destruct (Hloop fuel [] 0%nat st eq_refl) as (st' & Hrun & _ & Hsent).
  exists st'. split; [exact Hrun|exact Hsent].
Qed.

Lemma paginate_never_returns_on_endless_listing_witness :
  exists st',
    paginate endless_server 7 "/files" [("limit", VInt 2)] (new_client (Some "key") None 3 1)
    = (OutOfFuel, st')
    /\ length (sent (log st')) = 7%nat.
Proof.
  destruct (paginate_never_returns_on_endless_listing endless_server "/files"
              [("limit", VInt 2)] 2 7 (new_client (Some "key") None 3 1))
    as (st' & Hrun & Hsent).
  - lia.
  - simpl. lia.
  - reflexivity.
  - intros h o q. unfold endless_server.
    destruct (param_int_page (self (new_client (Some "key") None 3 1)) "/files" [] 2 o)
      as [Ho Hl].
    change (param_int "offset" q = o) in Ho. change (param_int "limit" q = 2) in Hl.
    rewrite Ho, Hl. eexists _, _, _, _.
    split; [reflexivity|]. split; [simpl; lia|]. split; [reflexivity|].
    split; [eexists _, _; split_and!; reflexivity|].
    simpl. lia.
  - exists st'. split; [exact Hrun|]. rewrite Hsent. reflexivity.
Defined.

(** ** The shape of an accepted signature *)

Lemma round_length (s : list Z) (kw : Z * Z) :
  length (SHA256.round s kw) = length s.
Proof.
  unfold SHA256.round.
  do 9 (destruct s as [|? s]; [reflexivity|]). reflexivity.
Qed.

Lemma fold_round_length (kws : list (Z * Z)) (s : list Z) :
  length (fold_left SHA256.round kws s) = length s.
Proof.
  revert s. induction kws as [|kw kws IH]; intros s; simpl; [reflexivity|].
  by rewrite IH, round_length.
Qed.

Lemma compress_length (h block : list Z) : length (SHA256.compress h block) = length h.
Proof.
  unfold SHA256.compress. rewrite length_map, length_combine, fold_round_length. lia.
Qed.

Lemma fold_compress_length (blocks : list (list Z)) (h : list Z) :
  length (fold_left SHA256.compress blocks h) = length h.
Proof.
  revert h. induction blocks as [|b blocks IH]; intros h; simpl; [reflexivity|].
  by rewrite IH, compress_length.
Qed.

Lemma be_bytes_length (n : nat) (x : Z) : length (SHA256.be_bytes n x) = n.
Proof. induction n as [|n IH]; simpl; [reflexivity|]. by rewrite IH. Qed.

(** A SHA-256 digest has 32 bytes, whatever the message. *)
Lemma digest_length (msg : list Z) : length (SHA256.digest msg) = 32%nat.
Proof.
  unfold SHA256.digest.
  assert (H : forall (n : nat) (ws : list Z),
             length (flat_map (SHA256.be_bytes n) ws) = (n * length ws)%nat).
  { intros n. induction ws as [|w ws IH]; cbn [flat_map length]; [lia|].
    rewrite length_app, be_bytes_length, IH. lia. }
  rewrite H, fold_compress_length. reflexivity.
Qed.

Lemma hmac_length (key msg : list Z) : length (SHA256.hmac key msg) = 32%nat.
Proof. unfold SHA256.hmac. apply digest_length. Qed.

Lemma hex_string_length (bs : list Z) : String.length (hex bs) = (2 * length bs)%nat.
Proof. induction bs as [|b bs IH]; simpl; [reflexivity|]. rewrite IH. lia. Qed.

Lemma hex_digit_lower (n : Z) : 0 <= n < 16 -> is_lower_hex (hex_digit n) = true.
Proof.
  intros Hn. unfold is_lower_hex, hex_digit.
  destruct (Z.ltb_spec n 10); rewrite code_ascii_of by lia.
  - apply orb_true_iff. left. apply andb_true_iff. split; apply Z.leb_le; lia.
  - apply orb_true_iff. right. apply andb_true_iff. split; apply Z.leb_le; lia.
Qed.

Lemma hex_is_lower (bs : list Z) :
  forallb is_lower_hex (list_ascii_of_string (hex bs)) = true.
Proof.
  induction bs as [|b bs IH]; simpl; [reflexivity|].
  rewrite !hex_digit_lower; [exact IH| |].
  - apply Z.mod_pos_bound. lia.
  - pose proof (Z.mod_pos_bound b 256 ltac:(lia)).
    split; [apply Z.div_pos; lia | apply Z.div_lt_upper_bound; lia].
Qed.

(** X17. A signature that [validate_webhook_signature] accepts is exactly 64
    characters long and made of the digits 0-9 and the lowercase letters
    a-f, for every payload and secret.  The comparison is exact: the same
    digest in uppercase, or with a prefix such as "sha256=", is turned
    down. *)
Theorem accepted_signature_is_lower_hex :
  forall (payload : list byte) (signature secret : string),
    validate_webhook_signature payload signature secret = inr true ->
    String.length signature = 64%nat
    /\ forallb is_lower_hex (list_ascii_of_string signature) = true.
Proof.
  intros payload signature secret Hok.
  rewrite validate_webhook_signature_cases in Hok.
  destruct (is_ascii_str signature); [|discriminate].
  injection Hok as Hok. apply String.eqb_eq in Hok. subst signature.
  unfold expected_signature. split.
  - by rewrite hex_string_length, hmac_length.
  - apply hex_is_lower.
Qed.

Lemma accepted_signature_is_lower_hex_witness :
  String.length "5bdcc146bf60754e6a042426089575c75a003f089d2739839dec58b964ec3843"
  = 64%nat
  /\ validate_webhook_signature
       (list_byte_of_string "what do ya want for nothing?")
       "5BDCC146BF60754E6A042426089575C75A003F089D2739839DEC58B964EC3843" "Jefe"
     = inr false
  /\ validate_webhook_signature
       (list_byte_of_string "what do ya want for nothing?")
       "sha256=5bdcc146bf60754e6a042426089575c75a003f089d2739839dec58b964ec3843" "Jefe"
     = inr false.
Proof.
  split.
  - apply (accepted_signature_is_lower_hex
             (list_byte_of_string "what do ya want for nothing?")
             "5bdcc146bf60754e6a042426089575c75a003f089d2739839dec58b964ec3843" "Jefe").
    vm_compute. reflexivity.
  - vm_compute. split; reflexivity.
Defined.

(** ** Upload form data *)

Lemma add_fields_lookup py_str (fields : pydict) :
  forall (data : pydict) (k : string),
    NoDup (map fst fields) ->
    dict_lookup k (add_fields py_str fields data)
    = match dict_lookup k fields with
      | Some v => if is_none v then dict_lookup k data
                  else Some (VStr (form_str py_str v))
      | None => dict_lookup k data
      end.
Proof.
  unfold add_fields.
  induction fields as [|[k' v'] fields IH]; intros data k Hnd; simpl; [reflexivity|].
  apply NoDup_cons in Hnd as [Hnotin Hnd]. rewrite IH by exact Hnd.
  assert (Hfresh : k = k' -> dict_lookup k fields = None).
  { intros ->. clear -Hnotin. induction fields as [|[k0 v0] fields IH]; [reflexivity|].
    simpl in *. destruct (String.eqb_spec k' k0) as [->|Hne].
    - exfalso. apply Hnotin. left.
    - apply IH. intros Hin. apply Hnotin. by right. }
  destruct (String.eqb_spec k k') as [Heq|Hne].
  - rewrite (Hfresh Heq). subst k'. destruct (is_none v'); [reflexivity|].
    apply dict_lookup_set_eq.
  - destruct (dict_lookup k fields) as [v|].
    + destruct (is_none v); [|reflexivity].
      destruct (is_none v'); [reflexivity|]. by apply dict_lookup_set_ne.
    + destruct (is_none v'); [reflexivity|]. by apply dict_lookup_set_ne.
Qed.

Lemma add_fields_strings py_str (fields : pydict) :
  forall data,
    Forall (fun kv => exists s, snd kv = VStr s) data ->
    Forall (fun kv => exists s, snd kv = VStr s) (add_fields py_str fields data).
Proof.
  unfold add_fields.
  induction fields as [|[k v] fields IH]; intros data Hdata; simpl; [exact Hdata|].
  apply IH. destruct (is_none v); [exact Hdata|]. simpl.
  clear IH. induction data as [|[k0 v0] data IHd]; simpl.
  - constructor; [eauto|constructor].
  - inversion Hdata as [|? ? Hh Ht]; subst.
    destruct (String.eqb k k0); constructor; eauto.
Qed.

(** X18. The form data of an upload: every value is a string; a field of
    the options or an extra keyword whose value is [None] is left out; an
    extra keyword replaces the option field of the same name; and the
    entries come from nowhere else.  Without an options object nothing but
    the extras is sent (none of the dataclass defaults), while the default
    options object sends [assessment_model=gpt-4], [priority=normal] and
    [auto_process=True].  The upload is one POST to [/files] with the files,
    no JSON body, and per-request headers without [Content-Type]. *)
Theorem upload_form_data :
  forall (transport : list event -> Request -> outcome) (py_str : value -> string)
         (files : list (string * file_part)) (options : option FileUploadOptions)
         (extra_data : pydict) (st : state),
    NoDup (map fst extra_data) ->
    files <> [] ->
    let data := form_data py_str options extra_data in
    let field k := match options with
                   | Some o => dict_lookup k (options_dict o)
                   | None => None
                   end in
    let shown v := if is_none v then None else Some (VStr (form_str py_str v)) in
    Forall (fun kv => exists s, snd kv = VStr s) data
    /\ (forall k,
          dict_lookup k data
          = match dict_lookup k extra_data with
            | Some v => if is_none v then field k ≫= shown else shown v
            | None => field k ≫= shown
            end)
    /\ form_data py_str None [] = []
    /\ form_data py_str (Some default_upload_options) []
       = [("assessment_model", VStr "gpt-4"); ("priority", VStr "normal");
          ("auto_process", VStr "True")]
    /\ (let q := build_request (self st) "/files" "POST" None VNone (Some files)
                   [("data", VDict data)] in
        req_method q = "POST"
        /\ req_files q = Some files
        /\ req_json q = None
        /\ req_extra q = [("data", VDict data)]
        /\ (exists h, req_headers q = Some h /\ h !! "Content-Type" = None)
        /\ exists n, sent (log (snd (_upload_with_files transport py_str files options
                                       extra_data st)))
                     = sent (log st) ++ repeat q n).
Proof.
  intros transport py_str files options extra_data st Hnd Hfiles data field shown.
  assert (Hopt : forall o, NoDup (map fst (options_dict o))).
  { intros o. simpl. repeat (constructor; [rewrite !list_elem_of_In; simpl; intuition discriminate|]).
    constructor. }
  split_and!.
  - subst data. unfold form_data. apply add_fields_strings.
    destruct options; [apply add_fields_strings|]; constructor.
  - intros k. subst data. unfold form_data. rewrite add_fields_lookup by exact Hnd.
    assert (Hbase : dict_lookup k (match options with
                                   | Some o => add_fields py_str (options_dict o) []
                                   | None => []
                                   end) = field k ≫= shown).
    { subst field shown. destruct options as [o|]; [|reflexivity].
      rewrite add_fields_lookup by apply Hopt. simpl.
      destruct (dict_lookup k (options_dict o)) as [v|]; [|reflexivity]. simpl.
      destruct (is_none v); reflexivity. }
    rewrite Hbase. destruct (dict_lookup k extra_data) as [v|]; [|reflexivity].
    subst shown. simpl. destruct (is_none v); reflexivity.
  - reflexivity.
  - reflexivity.
  - destruct files as [|f files]; [contradiction|].
    split_and!; try reflexivity.
    + eexists. split; [reflexivity|]. apply lookup_delete_eq.
    + apply (request_sent transport "/files" "POST" None VNone (Some (f :: files))
               [("data", VDict data)] st).
Qed.

Lemma upload_form_data_witness :
  form_data (fun _ => "")
    (Some {| source_language := Some "en"; target_language := Some "fr";
             assessment_model := Some "gpt-4"; priority := Some "high";
             auto_process := Some true; webhook_url := None |})
    [("priority", VStr "low"); ("note", VNone)]
  = [("source_language", VStr "en"); ("target_language", VStr "fr");
     ("assessment_model", VStr "gpt-4"); ("priority", VStr "low");
     ("auto_process", VStr "True")]
  /\ dict_lookup "priority"
       (form_data (fun _ => "")
          (Some {| source_language := Some "en"; target_language := Some "fr";
                   assessment_model := Some "gpt-4"; priority := Some "high";
                   auto_process := Some true; webhook_url := None |})
          [("priority", VStr "low"); ("note", VNone)])
     = Some (VStr "low").
Proof.
  split; [reflexivity|].
  destruct (upload_form_data (always (json_response 200 [] (VDict []))) (fun _ => "")
              [("file", {| filename := "a.xliff"; stream := 0%N;
                           content_type := "application/octet-stream" |})]
              (Some {| source_language := Some "en"; target_language := Some "fr";
                       assessment_model := Some "gpt-4"; priority := Some "high";
                       auto_process := Some true; webhook_url := None |})
              [("priority", VStr "low"); ("note", VNone)]
              (new_client (Some "key") None 3 1)) as (_ & Hlookup & _).
  - repeat (constructor; [rewrite !list_elem_of_In; simpl; intuition discriminate|]).
    constructor.
  - discriminate.
  - rewrite Hlookup. reflexivity.
Defined.

(** ** The client factory *)

(** X19. [create_api_client] knows three environments; any other name, a
    differently capitalised one included, silently gives the development
    URL on localhost.  Given a credential, the client it builds has the
    default policy of 3 attempts, 1 second and a 30 second timeout, and its
    base URL is the environment's, unchanged by the constructor. *)
Theorem create_api_client_environments :
  forall (py_str : value -> string) (key token : option string) (environment : string),
    opt_truthy key = true \/ opt_truthy token = true ->
    exists st,
      create_api_client py_str key token environment = inr st
      /\ retry_attempts (self st) = 3
      /\ retry_delay (self st) = 1%Q
      /\ timeout (self st) = 30
      /\ base_url (self st)
         = (if String.eqb environment "staging"
            then "https://staging-api.qa-platform.com/v1"
            else if String.eqb environment "production"
                 then "https://api.qa-platform.com/v1"
                 else "http://localhost:3001/api/v1").
Proof.
  intros py_str key token environment Hcred. unfold create_api_client, init.
  assert (negb (opt_truthy key) && negb (opt_truthy token) = false) as ->.
  { destruct Hcred as [-> | ->]; simpl; [reflexivity | apply andb_false_r]. }
  eexists. split; [reflexivity|]. simpl. split_and!; try reflexivity.
  destruct (String.eqb_spec environment "development") as [->|Hdev]; [reflexivity|].
  destruct (String.eqb_spec environment "staging") as [->|Hst]; [reflexivity|].
  destruct (String.eqb_spec environment "production") as [->|Hpr]; reflexivity.
Qed.

Lemma create_api_client_environments_witness :
  exists st,
    create_api_client (fun _ => "") (Some "key") None "Production" = inr st
    /\ base_url (self st) = "http://localhost:3001/api/v1".
Proof.
  destruct (create_api_client_environments (fun _ => "") (Some "key") None "Production")
    as (st & Hrun & _ & _ & _ & Hurl).
  - left. reflexivity.
  - exists st. split; [exact Hrun|]. rewrite Hurl. reflexivity.
Defined.
